(** * cvopt.model_selection._search: the search coordinators

    A shallow embedding of [cvopt/model_selection/_search.py] (the wrapper
    [SimpleoptCV] and the four backend classes [HyperoptCV], [BayesoptCV],
    [GAoptCV], [RandomoptCV]), together with models of the collaborators the
    module imports ([mk_objfunc], [gamin], the score summarizer), which live
    in other files of the package. *)

From Stdlib Require Import ZArith QArith List Lia Bool.
From stdpp Require Import gmap strings.

(** ** Python values *)

(** A score is a Python float: either the undefined value [np.nan] or a
    finite number. *)
Inductive score :=
| NaN
| Fin (q : Q).

Definition is_finite (s : score) : bool :=
  match s with
  | NaN => false
  | Fin _ => true
  end.

(** The values that flow through [_search.py] without being inspected there.
    Estimators, arrays, cross-validators, callables and generator objects are
    references into the Python heap. *)
Inductive pyval :=
| PyNone
| PyBool (b : bool)
| PyInt (z : Z)
| PyFloat (x : score)
| PyInf
| PyStr (s : string)
| PyRef (addr : N).

Definition kwargs := gmap string pyval.

(** [kw.get(name, default)]: how a keyword with a default value is bound. *)
Definition kwarg (kw : kwargs) (name : string) (default : pyval) : pyval :=
  match kw !! name with
  | Some v => v
  | None => default
  end.

(** ** Exceptions and the state-and-exception monad *)

Inductive exn :=
| KeyboardInterrupt
| Exception (msg : string)
| TypeError
| AttributeError (name : string)
| OtherError (cls : string).

Inductive result (A : Type) :=
| Ok (a : A)
| Raise (e : exn).
Arguments Ok {A} a.
Arguments Raise {A} e.

(** A Python statement sequence over a mutable state [S]: it ends normally
    with a value or with an exception, and the state it has mutated so far
    survives in both cases. *)
Definition M (S A : Type) : Type := S -> result A * S.

#[global] Instance M_ret {S} : MRet (M S) := fun A a s => (Ok a, s).

#[global] Instance M_bind {S} : MBind (M S) := fun A B k m s =>
  match m s with
  | (Ok a, s') => k a s'
  | (Raise e, s') => (Raise e, s')
  end.

Definition raise {S A} (e : exn) : M S A := fun s => (Raise e, s).

Definition gets {S A} (f : S -> A) : M S A := fun s => (Ok (f s), s).

Definition modify {S} (f : S -> S) : M S unit := fun s => (Ok tt, f s).

(** [try: body / except KeyboardInterrupt: pass] *)
Definition try_except_KeyboardInterrupt_pass {S} (body : M S unit) : M S unit :=
  fun s =>
    match body s with
    | (Raise KeyboardInterrupt, s') => (Ok tt, s')
    | r => r
    end.

(** A collaborator that acts on the heap only, run from a method of an object
    whose own attributes are [C]. *)
Definition on_world {C W A} (m : M W A) : M (C * W) A :=
  fun s =>
    match m (snd s) with
    | (r, w') => (r, (fst s, w'))
    end.

(** The current object [self]. *)
Definition self {C W} : M (C * W) C := gets fst.

Definition set_self {C W} (f : C -> C) : M (C * W) unit :=
  modify (fun s => (f (fst s), snd s)).

(** What [fit] hands back on normal termination: [return self]. *)
Inductive returned := Self.

(** ** Arguments of the calls made by [_search.py] *)

(** The constructor parameters the five classes share. *)
Record common_args := {
  c_estimator : pyval;
  c_param_distributions : pyval;
  c_scoring : pyval;
  c_cv : pyval;
  c_max_iter : pyval;
  c_random_state : option Z;
  c_n_jobs : pyval;
  c_pre_dispatch : pyval;
  c_verbose : pyval;
  c_logdir : pyval;
  c_save_estimator : pyval;
  c_model_id : pyval;
  c_refit : pyval
}.

(** The signature defaults of the constructors. *)
Definition default_args (est dists : pyval) : common_args :=
  {| c_estimator := est; c_param_distributions := dists;
     c_scoring := PyNone; c_cv := PyInt 5; c_max_iter := PyInt 32;
     c_random_state := None; c_n_jobs := PyInt 1; c_pre_dispatch := PyStr "2*n_jobs";
     c_verbose := PyInt 0; c_logdir := PyNone; c_save_estimator := PyInt 0;
     c_model_id := PyNone; c_refit := PyBool true |}.

(** Keyword arguments of [BaseSearcher.__init__]. *)
Record base_args := {
  ba_estimator : pyval;
  ba_param_distributions : pyval;
  ba_scoring : pyval;
  ba_cv : pyval;
  ba_n_jobs : pyval;
  ba_pre_dispatch : pyval;
  ba_verbose : pyval;
  ba_logdir : pyval;
  ba_save_estimator : pyval;
  ba_model_id : pyval;
  ba_refit : pyval;
  ba_backend : pyval
}.

Definition super_init_args (c : common_args) (backend : string) : base_args :=
  {| ba_estimator := c_estimator c; ba_param_distributions := c_param_distributions c;
     ba_scoring := c_scoring c; ba_cv := c_cv c; ba_n_jobs := c_n_jobs c;
     ba_pre_dispatch := c_pre_dispatch c; ba_verbose := c_verbose c;
     ba_logdir := c_logdir c; ba_save_estimator := c_save_estimator c;
     ba_model_id := c_model_id c; ba_refit := c_refit c;
     ba_backend := PyStr backend |}.

(** Parameters of [fit]. *)
Record fit_args := {
  fa_X : pyval;
  fa_y : pyval;
  fa_validation_data : pyval;
  fa_groups : pyval;
  fa_feature_groups : pyval;
  fa_min_n_features : pyval
}.

(** The tuple [_preproc_fit] returns. *)
Record prepared := {
  p_X : pyval;
  p_y : pyval;
  p_Xvalid : pyval;
  p_yvalid : pyval;
  p_cv : pyval;
  p_param_distributions : pyval
}.

(** Keyword arguments of [mk_objfunc]. *)
Record objfunc_args := {
  oa_X : pyval;
  oa_y : pyval;
  oa_groups : pyval;
  oa_feature_groups : pyval;
  oa_feature_axis : pyval;
  oa_estimator : pyval;
  oa_scoring : pyval;
  oa_cv : pyval;
  oa_param_distributions : pyval;
  oa_backend : pyval;
  oa_failedscore : pyval;
  oa_score_summarizer : pyval;
  oa_Xvalid : pyval;
  oa_yvalid : pyval;
  oa_n_jobs : pyval;
  oa_pre_dispatch : pyval;
  oa_cvsummarizer : pyval;
  oa_save_estimator : pyval;
  oa_min_n_features : pyval
}.

(** Keyword arguments of [gamin]. *)
Record gamin_args := {
  ga_max_iter : pyval;
  ga_iter_pergeneration : pyval;
  ga_param_crossover_proba : pyval;
  ga_param_mutation_proba : pyval;
  ga_random_sampling_proba : pyval;
  ga_cvsummarizer : pyval
}.

(** ** The collaborators

    Everything [_search.py] calls but does not define: [BaseSearcher] and
    [mk_objfunc] (from [._base]), [gamin] (from [._ga]), hyperopt's [fmin] and
    [tpe.suggest], GPyOpt's [BayesianOptimization], numpy's generator.  They
    act on [World], the part of the Python heap that [_search.py] never
    touches directly: the attributes [BaseSearcher] keeps on [self]
    (among them the summarizer [_cvs] with the trial history), numpy's global
    generator and the [RandomState] objects.  The attributes that
    [_search.py] itself assigns ([max_iter], [failedscore], [opt], ...) are
    kept apart, in the record of each class: the collaborators do not
    assign them. *)
Class Env := {
  World : Type;
  Objective : Type;
  tpe_suggest : pyval;
  np_random_seed : pyval -> M World unit;
  np_random_RandomState : Z -> M World pyval;
  fmin : Objective -> pyval -> pyval -> pyval -> pyval -> M World pyval;
  BayesianOptimization : Objective -> list (string * pyval) -> M World pyval;
  run_optimization : pyval -> pyval -> pyval -> M World pyval;
  gamin : Objective -> pyval -> gamin_args -> M World pyval;
  mk_objfunc : objfunc_args -> M World Objective;
  BaseSearcher_init : base_args -> M World unit;
  BaseSearcher_feature_axis : pyval;
  BaseSearcher_score_summarizer : pyval;
  (** [self._preproc_fit(X=, y=, validation_data=, feature_groups=)] *)
  BaseSearcher_preproc_fit : pyval -> pyval -> pyval -> pyval -> M World prepared;
  (** [self._postproc_fit(X=, y=, feature_groups=, best_params=, best_score=)] *)
  BaseSearcher_postproc_fit : pyval -> pyval -> pyval -> pyval -> pyval -> M World unit;
  (** [BaseSearcher._random_scoring] is defined in [._base], outside this
      file: the score it draws from [y] is a Python float, of which nothing
      more is known here. *)
  random_score : pyval -> M World score;
  (** An attribute of [self] that [BaseSearcher] defines or sets. *)
  BaseSearcher_getattr : string -> M World pyval;
  (** [getattr(o, name)] on an object of the heap. *)
  py_getattr : pyval -> string -> M World pyval
}.

Section Coordinators.
Context {E : Env}.

(** [self._random_scoring(y)] *)
Definition BaseSearcher_random_scoring (y : pyval) : M World pyval :=
  x ← random_score y; mret (PyFloat x).

(** The [mk_objfunc(...)] keywords: the four [fit] methods spell the same
    call and differ in [failedscore] only.  Attribute reads of [self] happen
    in keyword order. *)
Definition objfunc_kwargs (p : prepared) (a : fit_args) (failedscore : pyval)
  : M World objfunc_args :=
  est ← BaseSearcher_getattr "estimator";
  sc ← BaseSearcher_getattr "scoring";
  be ← BaseSearcher_getattr "backend";
  nj ← BaseSearcher_getattr "n_jobs";
  pd ← BaseSearcher_getattr "pre_dispatch";
  cvs ← BaseSearcher_getattr "_cvs";
  se ← BaseSearcher_getattr "save_estimator";
  mret {| oa_X := p_X p; oa_y := p_y p; oa_groups := fa_groups a;
          oa_feature_groups := fa_feature_groups a;
          oa_feature_axis := BaseSearcher_feature_axis;
          oa_estimator := est; oa_scoring := sc; oa_cv := p_cv p;
          oa_param_distributions := p_param_distributions p;
          oa_backend := be; oa_failedscore := failedscore;
          oa_score_summarizer := BaseSearcher_score_summarizer;
          oa_Xvalid := p_Xvalid p; oa_yvalid := p_yvalid p;
          oa_n_jobs := nj; oa_pre_dispatch := pd; oa_cvsummarizer := cvs;
          oa_save_estimator := se;
          oa_min_n_features := fa_min_n_features a |}.

(** The tail of every [fit]:
    [self._postproc_fit(X=X, y=y, feature_groups=feature_groups,
       best_params=self._cvs.best_params_, best_score=self._cvs.best_score_)]
    and [return self]. *)
Definition postproc_and_return (p : prepared) (a : fit_args) : M World returned :=
  cvs ← BaseSearcher_getattr "_cvs";
  best_params ← py_getattr cvs "best_params_";
  cvs' ← BaseSearcher_getattr "_cvs";
  best_score ← py_getattr cvs' "best_score_";
  BaseSearcher_postproc_fit (p_X p) (p_y p) (fa_feature_groups a) best_params best_score;;
  mret Self.

(** [random_state] as the hyperopt, genetic and random constructors keep it:
    [None], or [np.random.RandomState(int(random_state))]. *)
Definition mk_random_state (rs : option Z) : M World pyval :=
  match rs with
  | None => mret PyNone
  | Some z => np_random_RandomState z
  end.

End Coordinators.

(** ** class HyperoptCV(BaseSearcher) *)
Module HyperoptCV.

Record t := {
  max_iter : pyval;
  algo : pyval;
  random_state : pyval
}.

(** The names the class body defines. *)
Definition methods : gset string := {[ "__init__"; "fit" ]}.

(** The instance attributes [__init__] sets in this file. *)
Definition instance_attr (me : t) (name : string) : option pyval :=
  if String.eqb name "max_iter" then Some (max_iter me)
  else if String.eqb name "algo" then Some (algo me)
  else if String.eqb name "random_state" then Some (random_state me)
  else None.

Section Methods.
Context {E : Env}.

Definition __init__ (c : common_args) (algo : pyval) : M World t :=
  BaseSearcher_init (super_init_args c "hyperopt");;
  rs ← mk_random_state (c_random_state c);
  mret {| max_iter := c_max_iter c; algo := algo; random_state := rs |}.

(** [HyperoptCV(estimator, param_distributions, scoring=..., **kwargs)]: a
    keyword the signature does not have is a [TypeError]. *)
Definition new (c : common_args) (kw : kwargs) : M World t :=
  if bool_decide (dom kw ⊆ ({[ "algo" ]} : gset string))
  then __init__ c (kwarg kw "algo" tpe_suggest)
  else raise TypeError.

(** Lines 301-308 of [fit]: everything before the [try]; yields the prepared
    data and the keywords [mk_objfunc] is called with. *)
Definition fit_setup (a : fit_args) : M (t * World) (prepared * objfunc_args) :=
  p ← on_world (BaseSearcher_preproc_fit (fa_X a) (fa_y a) (fa_validation_data a)
                                         (fa_feature_groups a));
  oa ← on_world (objfunc_kwargs p a (PyFloat NaN));
  mret (p, oa).

Definition fit (a : fit_args) : M (t * World) returned :=
  '(p, oa) ← fit_setup a;
  obj ← on_world (mk_objfunc oa);
  try_except_KeyboardInterrupt_pass
    (me ← self;
     on_world (fmin obj (p_param_distributions p) (algo me) (max_iter me)
                    (random_state me));;
     mret tt);;
  on_world (postproc_and_return p a).

End Methods.
End HyperoptCV.

(** ** class BayesoptCV(BaseSearcher) *)
Module BayesoptCV.

Record t := {
  random_state : pyval;
  max_iter : pyval;
  max_time : pyval;
  model_type : pyval;
  initial_params : pyval;
  initial_score : pyval;
  initial_design_numdata : pyval;
  initial_design_type : pyval;
  acquisition_type : pyval;
  normalize_Y : pyval;
  exact_feval : pyval;
  acquisition_optimizer_type : pyval;
  model_update_interval : pyval;
  evaluator_type : pyval;
  batch_size : pyval;
  failedscore : pyval;
  (** [self.opt] does not exist before the first [fit]. *)
  opt : option pyval
}.

Definition set_failedscore (v : pyval) (me : t) : t :=
  {| random_state := random_state me; max_iter := max_iter me;
     max_time := max_time me; model_type := model_type me;
     initial_params := initial_params me; initial_score := initial_score me;
     initial_design_numdata := initial_design_numdata me;
     initial_design_type := initial_design_type me;
     acquisition_type := acquisition_type me; normalize_Y := normalize_Y me;
     exact_feval := exact_feval me;
     acquisition_optimizer_type := acquisition_optimizer_type me;
     model_update_interval := model_update_interval me;
     evaluator_type := evaluator_type me; batch_size := batch_size me;
     failedscore := v; opt := opt me |}.

Definition set_opt (o : pyval) (me : t) : t :=
  {| random_state := random_state me; max_iter := max_iter me;
     max_time := max_time me; model_type := model_type me;
     initial_params := initial_params me; initial_score := initial_score me;
     initial_design_numdata := initial_design_numdata me;
     initial_design_type := initial_design_type me;
     acquisition_type := acquisition_type me; normalize_Y := normalize_Y me;
     exact_feval := exact_feval me;
     acquisition_optimizer_type := acquisition_optimizer_type me;
     model_update_interval := model_update_interval me;
     evaluator_type := evaluator_type me; batch_size := batch_size me;
     failedscore := failedscore me; opt := Some o |}.

Definition methods : gset string := {[ "__init__"; "fit" ]}.

Definition instance_attr (me : t) (name : string) : option pyval :=
  if String.eqb name "random_state" then Some (random_state me)
  else if String.eqb name "max_iter" then Some (max_iter me)
  else if String.eqb name "max_time" then Some (max_time me)
  else if String.eqb name "model_type" then Some (model_type me)
  else if String.eqb name "initial_params" then Some (initial_params me)
  else if String.eqb name "initial_score" then Some (initial_score me)
  else if String.eqb name "initial_design_numdata" then Some (initial_design_numdata me)
  else if String.eqb name "initial_design_type" then Some (initial_design_type me)
  else if String.eqb name "acquisition_type" then Some (acquisition_type me)
  else if String.eqb name "normalize_Y" then Some (normalize_Y me)
  else if String.eqb name "exact_feval" then Some (exact_feval me)
  else if String.eqb name "acquisition_optimizer_type"
       then Some (acquisition_optimizer_type me)
  else if String.eqb name "model_update_interval" then Some (model_update_interval me)
  else if String.eqb name "evaluator_type" then Some (evaluator_type me)
  else if String.eqb name "batch_size" then Some (batch_size me)
  else if String.eqb name "failedscore" then Some (failedscore me)
  else if String.eqb name "opt" then opt me
  else None.

(** The keywords of [__init__] besides the shared ones. *)
Definition keywords : gset string :=
  {[ "max_time"; "model_type"; "initial_params"; "initial_score";
     "initial_design_numdata"; "initial_design_type"; "acquisition_type";
     "normalize_Y"; "exact_feval"; "acquisition_optimizer_type";
     "model_update_interval"; "evaluator_type"; "batch_size" ]}.

Definition of_random_state (rs : option Z) : pyval :=
  match rs with
  | None => PyNone
  | Some z => PyInt z
  end.

Section Methods.
Context {E : Env}.

(** [kw] holds the keywords given explicitly; the others take the defaults
    of the signature. *)
Definition __init__ (c : common_args) (kw : kwargs) : M World t :=
  BaseSearcher_init (super_init_args c "bayesopt");;
  mret {| random_state := of_random_state (c_random_state c);
          max_iter := c_max_iter c;
          max_time := kwarg kw "max_time" PyInf;
          model_type := kwarg kw "model_type" (PyStr "GP");
          initial_params := kwarg kw "initial_params" PyNone;
          initial_score := kwarg kw "initial_score" PyNone;
          initial_design_numdata := kwarg kw "initial_design_numdata" (PyInt 5);
          initial_design_type := kwarg kw "initial_design_type" (PyStr "random");
          acquisition_type := kwarg kw "acquisition_type" (PyStr "EI");
          normalize_Y := kwarg kw "normalize_Y" (PyBool true);
          exact_feval := kwarg kw "exact_feval" (PyBool false);
          acquisition_optimizer_type :=
            kwarg kw "acquisition_optimizer_type" (PyStr "lbfgs");
          model_update_interval := kwarg kw "model_update_interval" (PyInt 1);
          evaluator_type := kwarg kw "evaluator_type" (PyStr "sequential");
          batch_size := kwarg kw "batch_size" (PyInt 1);
          failedscore := PyNone;
          opt := None |}.

Definition new (c : common_args) (kw : kwargs) : M World t :=
  if bool_decide (dom kw ⊆ keywords) then __init__ c kw else raise TypeError.

(** Lines 559-572 of [fit]: everything up to the keywords of [mk_objfunc]. *)
Definition fit_setup (a : fit_args) : M (t * World) (prepared * objfunc_args) :=
  p ← on_world (BaseSearcher_preproc_fit (fa_X a) (fa_y a) (fa_validation_data a)
                                         (fa_feature_groups a));
  me ← self;
  on_world (np_random_seed (random_state me));;
  (match failedscore me with
   | PyNone =>
       (* If search is failed, Return random score.
          random score is fixed at first fit. *)
       v ← on_world (BaseSearcher_random_scoring (p_y p));
       set_self (set_failedscore v)
   | _ => mret tt
   end);;
  me ← self;
  oa ← on_world (objfunc_kwargs p a (failedscore me));
  mret (p, oa).

(** The keywords of the [BayesianOptimization(obj, ...)] call. *)
Definition optimizer_kwargs (me : t) (p : prepared) : list (string * pyval) :=
  [ ("domain", p_param_distributions p); ("constraints", PyNone);
    ("cost_withGradients", PyNone); ("model_type", model_type me);
    ("X", initial_params me); ("Y", initial_score me);
    ("initial_design_numdata", initial_design_numdata me);
    ("initial_design_type", initial_design_type me);
    ("acquisition_type", acquisition_type me); ("normalize_Y", normalize_Y me);
    ("exact_feval", exact_feval me);
    ("acquisition_optimizer_type", acquisition_optimizer_type me);
    ("model_update_interval", model_update_interval me);
    ("evaluator_type", evaluator_type me); ("batch_size", batch_size me);
    ("num_cores", PyInt 1); ("verbosity", PyBool false);
    ("verbosity_model", PyBool false); ("maximize", PyBool false);
    ("de_duplication", PyBool false) ].

Definition fit (a : fit_args) : M (t * World) returned :=
  '(p, oa) ← fit_setup a;
  obj ← on_world (mk_objfunc oa);
  me ← self;
  o ← on_world (BayesianOptimization obj (optimizer_kwargs me p));
  set_self (set_opt o);;
  try_except_KeyboardInterrupt_pass
    (me ← self;
     match opt me with
     | Some o => on_world (run_optimization o (max_iter me) (max_time me));; mret tt
     | None => raise (AttributeError "opt")
     end);;
  on_world (postproc_and_return p a).

End Methods.
End BayesoptCV.

(** ** class GAoptCV(BaseSearcher) *)
Module GAoptCV.

Record t := {
  max_iter : pyval;
  iter_pergeneration : pyval;
  param_crossover_proba : pyval;
  param_mutation_proba : pyval;
  random_sampling_proba : pyval;
  random_state : pyval
}.

Definition methods : gset string := {[ "__init__"; "fit" ]}.

Definition instance_attr (me : t) (name : string) : option pyval :=
  if String.eqb name "max_iter" then Some (max_iter me)
  else if String.eqb name "iter_pergeneration" then Some (iter_pergeneration me)
  else if String.eqb name "param_crossover_proba" then Some (param_crossover_proba me)
  else if String.eqb name "param_mutation_proba" then Some (param_mutation_proba me)
  else if String.eqb name "random_sampling_proba" then Some (random_sampling_proba me)
  else if String.eqb name "random_state" then Some (random_state me)
  else None.

Definition keywords : gset string :=
  {[ "iter_pergeneration"; "param_crossover_proba"; "param_mutation_proba";
     "random_sampling_proba" ]}.

Section Methods.
Context {E : Env}.

Definition __init__ (c : common_args) (kw : kwargs) : M World t :=
  BaseSearcher_init (super_init_args c "gaopt");;
  rs ← mk_random_state (c_random_state c);
  mret {| max_iter := c_max_iter c;
          iter_pergeneration := kwarg kw "iter_pergeneration" (PyInt 8);
          param_crossover_proba :=
            kwarg kw "param_crossover_proba" (PyFloat (Fin (1 # 2)));
          param_mutation_proba :=
            kwarg kw "param_mutation_proba" (PyFloat (Fin (1 # 100)));
          random_sampling_proba :=
            kwarg kw "random_sampling_proba" (PyFloat (Fin (1 # 100)));
          random_state := rs |}.

Definition new (c : common_args) (kw : kwargs) : M World t :=
  if bool_decide (dom kw ⊆ keywords) then __init__ c kw else raise TypeError.

(** Lines 764-772 of [fit]. *)
Definition fit_setup (a : fit_args) : M (t * World) (prepared * objfunc_args) :=
  p ← on_world (BaseSearcher_preproc_fit (fa_X a) (fa_y a) (fa_validation_data a)
                                         (fa_feature_groups a));
  me ← self;
  on_world (np_random_seed (random_state me));;
  oa ← on_world (objfunc_kwargs p a (PyFloat NaN));
  mret (p, oa).

Definition fit (a : fit_args) : M (t * World) returned :=
  '(p, oa) ← fit_setup a;
  obj ← on_world (mk_objfunc oa);
  try_except_KeyboardInterrupt_pass
    (me ← self;
     cvs ← on_world (BaseSearcher_getattr "_cvs");
     on_world (gamin obj (p_param_distributions p)
                 {| ga_max_iter := max_iter me;
                    ga_iter_pergeneration := iter_pergeneration me;
                    ga_param_crossover_proba := param_crossover_proba me;
                    ga_param_mutation_proba := param_mutation_proba me;
                    ga_random_sampling_proba := random_sampling_proba me;
                    ga_cvsummarizer := cvs |});;
     mret tt);;
  on_world (postproc_and_return p a).

End Methods.
End GAoptCV.

(** ** class RandomoptCV(BaseSearcher) *)
Module RandomoptCV.

Record t := {
  max_iter : pyval;
  random_state : pyval
}.

Definition methods : gset string := {[ "__init__"; "fit" ]}.

Definition instance_attr (me : t) (name : string) : option pyval :=
  if String.eqb name "max_iter" then Some (max_iter me)
  else if String.eqb name "random_state" then Some (random_state me)
  else None.

Section Methods.
Context {E : Env}.

(** The class registers itself with [BaseSearcher] as backend ["gaopt"]. *)
Definition __init__ (c : common_args) : M World t :=
  BaseSearcher_init (super_init_args c "gaopt");;
  rs ← mk_random_state (c_random_state c);
  mret {| max_iter := c_max_iter c; random_state := rs |}.

Definition new (c : common_args) (kw : kwargs) : M World t :=
  if bool_decide (dom kw ⊆ (∅ : gset string)) then __init__ c else raise TypeError.

(** Lines 925-933 of [fit]. *)
Definition fit_setup (a : fit_args) : M (t * World) (prepared * objfunc_args) :=
  p ← on_world (BaseSearcher_preproc_fit (fa_X a) (fa_y a) (fa_validation_data a)
                                         (fa_feature_groups a));
  me ← self;
  on_world (np_random_seed (random_state me));;
  oa ← on_world (objfunc_kwargs p a (PyFloat NaN));
  mret (p, oa).

Definition fit (a : fit_args) : M (t * World) returned :=
  '(p, oa) ← fit_setup a;
  obj ← on_world (mk_objfunc oa);
  try_except_KeyboardInterrupt_pass
    (me ← self;
     cvs ← on_world (BaseSearcher_getattr "_cvs");
     on_world (gamin obj (p_param_distributions p)
                 {| ga_max_iter := max_iter me;
                    ga_iter_pergeneration := PyInt 1;
                    ga_param_crossover_proba := PyInt 0;
                    ga_param_mutation_proba := PyInt 0;
                    ga_random_sampling_proba := PyInt 1;
                    ga_cvsummarizer := cvs |});;
     mret tt);;
  on_world (postproc_and_return p a).

End Methods.
End RandomoptCV.

(** ** The backend behind the wrapper *)

(** An instance of one of the four backend classes. *)
Inductive searcher :=
| Hyperopt (o : HyperoptCV.t)
| Bayesopt (o : BayesoptCV.t)
| GAopt (o : GAoptCV.t)
| Randomopt (o : RandomoptCV.t).

Definition class_name (s : searcher) : string :=
  match s with
  | Hyperopt _ => "HyperoptCV"
  | Bayesopt _ => "BayesoptCV"
  | GAopt _ => "GAoptCV"
  | Randomopt _ => "RandomoptCV"
  end.

(** What an attribute access evaluates to. *)
Inductive attr :=
| Value (v : pyval)
| BoundMethod (cls name : string)
| Instance (s : searcher)
| Builtin (name : string).

Definition searcher_instance_attr (s : searcher) (name : string) : option pyval :=
  match s with
  | Hyperopt o => HyperoptCV.instance_attr o name
  | Bayesopt o => BayesoptCV.instance_attr o name
  | GAopt o => GAoptCV.instance_attr o name
  | Randomopt o => RandomoptCV.instance_attr o name
  end.

Definition searcher_methods (s : searcher) : gset string :=
  match s with
  | Hyperopt _ => HyperoptCV.methods
  | Bayesopt _ => BayesoptCV.methods
  | GAopt _ => GAoptCV.methods
  | Randomopt _ => RandomoptCV.methods
  end.

(** Run a method of class [C] on the object [c] held in a variable of the
    sum type. *)
Definition with_self {C D W A} (inj : C -> D) (c : C) (m : M (C * W) A)
  : M (D * W) A :=
  fun s =>
    match m (c, snd s) with
    | (r, s') => (r, (inj (fst s'), snd s'))
    end.

Section Backend.
Context {E : Env}.

(** [getattr(s, name)] for a backend instance [s]: the instance attributes
    and methods defined in this file, then whatever [BaseSearcher] provides. *)
Definition searcher_getattr (s : searcher) (name : string) : M World attr :=
  match searcher_instance_attr s name with
  | Some v => mret (Value v)
  | None =>
      if bool_decide (name ∈ searcher_methods s)
      then mret (BoundMethod (class_name s) name)
      else v ← BaseSearcher_getattr name; mret (Value v)
  end.

(** [s.fit(...)], dispatched on the class of [s]. *)
Definition searcher_fit (a : fit_args) : M (searcher * World) returned :=
  fun s =>
    match fst s with
    | Hyperopt o => with_self Hyperopt o (HyperoptCV.fit a) s
    | Bayesopt o => with_self Bayesopt o (BayesoptCV.fit a) s
    | GAopt o => with_self GAopt o (GAoptCV.fit a) s
    | Randomopt o => with_self Randomopt o (RandomoptCV.fit a) s
    end.

End Backend.

(** ** class SimpleoptCV *)
Module SimpleoptCV.

Record t := {
  optcv : searcher;
  backend : string
}.

Definition methods : gset string := {[ "__init__"; "__getattr__" ]}.

(** What every instance of a plain class has besides its own definitions:
    the entries a [class] statement adds ([__dict__], [__doc__],
    [__module__], [__weakref__]) and the members of [object], as CPython
    3.11 has them ([__getstate__] is a member of [object] since 3.11). *)
Definition object_attrs : gset string :=
  {[ "__class__"; "__delattr__"; "__dict__"; "__dir__"; "__doc__"; "__eq__";
     "__format__"; "__ge__"; "__getattribute__"; "__getstate__"; "__gt__";
     "__hash__"; "__init_subclass__"; "__le__"; "__lt__"; "__module__";
     "__ne__"; "__new__"; "__reduce__"; "__reduce_ex__"; "__repr__";
     "__setattr__"; "__sizeof__"; "__str__"; "__subclasshook__";
     "__weakref__" ]}.

Definition instance_attr (me : t) (name : string) : option attr :=
  if String.eqb name "optcv" then Some (Instance (optcv me))
  else if String.eqb name "backend" then Some (Value (PyStr (backend me)))
  else None.

(** The names defined on [SimpleoptCV] itself: normal lookup finds them, so
    [__getattr__] is not consulted. *)
Definition defined (name : string) : Prop :=
  name ∈ ({[ "optcv"; "backend" ]} ∪ methods ∪ object_attrs : gset string).

Section Methods.
Context {E : Env}.

Definition __init__ (c : common_args) (backend : string) (kw : kwargs)
  : M World t :=
  optcv ←
    (if String.eqb backend "hyperopt" then
       o ← HyperoptCV.new c kw; mret (Hyperopt o)
     else if String.eqb backend "bayesopt" then
       o ← BayesoptCV.new c kw; mret (Bayesopt o)
     else if String.eqb backend "gaopt" then
       o ← GAoptCV.new c kw; mret (GAopt o)
     else if String.eqb backend "randomopt" then
       o ← RandomoptCV.new c kw; mret (Randomopt o)
     else
       raise (Exception ("`backend` " +:+ backend +:+ " is not supported.")));
  mret {| optcv := optcv; backend := backend |}.

Definition __getattr__ (me : t) (name : string) : M World attr :=
  searcher_getattr (optcv me) name.

(** [me.name]: the instance dictionary, the class and [object]; when these
    fail, [__getattr__]. *)
Definition getattr (me : t) (name : string) : M World attr :=
  match instance_attr me name with
  | Some v => mret v
  | None =>
      if bool_decide (name ∈ methods) then mret (BoundMethod "SimpleoptCV" name)
      else if bool_decide (name ∈ object_attrs) then mret (Builtin name)
      else __getattr__ me name
  end.

End Methods.
End SimpleoptCV.

(** * The objective-function harness

    [mk_objfunc], [mk_feature_select_index] and [fit_and_score] are imported
    from [._base], and the summarizer that keeps the trial history from
    [..utils._logger]; neither file is part of [_search.py].  The harness is
    therefore modelled from the specification (sections 3, 4.1-4.3 and 7). *)
Module Harness.

(** Modelled from the spec: ParameterSet (section 3), absent from
    [_search.py].  A mapping from parameter name to value; the entries named
    by the reserved flag keys are the feature-group inclusion flags. *)
Definition ParameterSet := gmap string pyval.

(** Python truthiness of a "boolean-like" flag. *)
Definition truthy (v : pyval) : bool :=
  match v with
  | PyNone => false
  | PyBool b => b
  | PyInt z => negb (z =? 0)%Z
  | PyFloat NaN => true
  | PyFloat (Fin q) => negb (Qeq_bool q 0%Q)
  | PyInf => true
  | PyStr s => negb (String.eqb s "")
  | PyRef _ => true
  end.

(** Modelled from the spec: Fold (section 3), absent from [_search.py]:
    train indices and validation indices over the sample axis. *)
Record Fold := {
  train : list nat;
  validation : list nat
}.

(** What a FoldEvaluator call produces: a real-valued score, or FoldFailure
    with the causing error. *)
Inductive fold_outcome :=
| FoldScore (q : Q)
| FoldFailure (cause : exn).

(** Modelled from the spec: FoldEvaluator (section 4.2), i.e. [fit_and_score]
    of [._base], absent from [_search.py].  Given the estimator
    hyperparameters, the feature-index set and one Fold it clones, fits and
    scores; the estimator template, the data and the scoring function are
    fixed for one [fit] call and so are part of the instance. *)
Class Learner := {
  FoldEvaluator : ParameterSet -> list nat -> Fold -> fold_outcome
}.

(** Modelled from the spec: the configuration one ObjectiveFunction is built
    with (sections 4.1, 4.3), absent from [_search.py]. *)
Record config := {
  (** group label of every original column, when grouping is configured *)
  feature_groups : option (list string);
  (** the reserved parameter name that carries the flag of a group *)
  flag_key : string -> string;
  n_features : nat;
  min_n_features : nat;
  folds : list Fold;
  failedscore : score;
  score_summarizer : list Q -> Q;
  (** the scoring convention: higher is better unless inverted *)
  greater_is_better : bool;
  (** the convention of the driver that consumes the returned score *)
  driver_minimizes : bool
}.

(** Modelled from the spec: Trial (section 3), absent from [_search.py].
    The wall-clock duration is left out. *)
Record Trial := {
  iteration : nat;
  params : ParameterSet;
  fold_scores : list score;
  aggregated : score;
  features : list nat;
  failed : bool
}.

Definition BestResult : Type := ParameterSet * score.

(** Modelled from the spec: what the SearchCoordinator owns during one [fit]
    (section 3): the ordered trial history and BestResult.
    [fold_evaluations] counts the FoldEvaluator calls made so far. *)
Record state := {
  history : list Trial;
  best : option BestResult;
  fold_evaluations : nat
}.

Definition initial : state :=
  {| history := []; best := None; fold_evaluations := 0 |}.

(** *** FeatureSelector (section 4.1) *)

Definition flag_of (cfg : config) (ps : ParameterSet) (group : string) : bool :=
  match ps !! flag_key cfg group with
  | Some v => truthy v
  | None => false
  end.

(** The indices, in increasing order from [i], of the columns whose group
    flag is true. *)
Fixpoint columns_from (i : nat) (labels : list string) (flag : string -> bool)
  : list nat :=
  match labels with
  | [] => []
  | g :: labels' =>
      if flag g then i :: columns_from (S i) labels' flag
      else columns_from (S i) labels' flag
  end.

Definition selected_columns (cfg : config) (labels : list string)
  (ps : ParameterSet) : list nat :=
  columns_from 0 labels (flag_of cfg ps).

Inductive selection :=
| Selected (index : list nat)
| InfeasibleSelection.

(** Modelled from the spec: FeatureSelector (section 4.1), i.e.
    [mk_feature_select_index] of [._base], absent from [_search.py]. *)
Definition FeatureSelector (cfg : config) (ps : ParameterSet) : selection :=
  match feature_groups cfg with
  | None => Selected (seq 0 (n_features cfg))
  | Some labels =>
      let index := selected_columns cfg labels ps in
      if (length index <? min_n_features cfg)%nat then InfeasibleSelection
      else Selected index
  end.

(** Step 1 of section 4.3: the estimator hyperparameters are the entries
    that are not feature-group flags. *)
Definition flag_keys (cfg : config) : gset string :=
  match feature_groups cfg with
  | None => ∅
  | Some labels => list_to_set (flag_key cfg <$> labels)
  end.

Definition hyperparameters (cfg : config) (ps : ParameterSet) : ParameterSet :=
  filter (λ kv, kv.1 ∉ flag_keys cfg) ps.

(** *** Score aggregation (section 4.3, step 3) *)

Definition sum (l : list Q) : Q := fold_right Qplus 0%Q l.

(** The default aggregator: the arithmetic mean. *)
Definition mean (l : list Q) : Q := (sum l / inject_Z (Z.of_nat (length l)))%Q.

(** The scores of the folds that succeeded, in fold order. *)
Fixpoint successes (rs : list fold_outcome) : list Q :=
  match rs with
  | [] => []
  | FoldScore q :: rs' => q :: successes rs'
  | FoldFailure _ :: rs' => successes rs'
  end.

Definition is_failure (r : fold_outcome) : bool :=
  match r with
  | FoldScore _ => false
  | FoldFailure _ => true
  end.

(** A failed fold contributes the FailureSentinel, for that fold only. *)
Definition fold_score (cfg : config) (r : fold_outcome) : score :=
  match r with
  | FoldScore q => Fin q
  | FoldFailure _ => failedscore cfg
  end.

(** Modelled from the spec: the score aggregation of [mk_objfunc]
    (section 4.3, step 3), absent from [_search.py].  The aggregator reduces
    the fold scores to one trial score: failed folds are ignored if any fold
    succeeded, else the result is the FailureSentinel. *)
Definition summarize (cfg : config) (rs : list fold_outcome) : score :=
  match successes rs with
  | [] => failedscore cfg
  | q :: qs => Fin (score_summarizer cfg (q :: qs))
  end.

(** *** BestResult (section 3; section 4.3, step 5) *)

Definition Qltb (a b : Q) : bool := negb (Qle_bool b a).

(** [better gib new old]: [new] is strictly better than [old] in the
    configured direction.  The undefined value compares with nothing. *)
Definition better (gib : bool) (new old : score) : bool :=
  match new, old with
  | Fin a, Fin b => if gib then Qltb b a else Qltb a b
  | _, _ => false
  end.

(** Modelled from the spec: the BestResult update of the summarizer
    (section 3; section 4.3, step 5), absent from [_search.py].  BestResult
    is replaced only by a strictly better score; with no result yet, the
    first defined score is taken. *)
Definition update_best (gib : bool) (tr : Trial) (b : option BestResult)
  : option BestResult :=
  match b with
  | None => if is_finite (aggregated tr) then Some (params tr, aggregated tr) else None
  | Some (_, s) =>
      if better gib (aggregated tr) s then Some (params tr, aggregated tr) else b
  end.

(** *** ObjectiveFunction (section 4.3) *)

Definition negate (s : score) : score :=
  match s with
  | NaN => NaN
  | Fin q => Fin (- q)%Q
  end.

(** Step 6: the sign the driver expects. *)
Definition sign_adjust (cfg : config) (s : score) : score :=
  if eqb (driver_minimizes cfg) (greater_is_better cfg) then negate s else s.

Section Evaluate.
Context {L : Learner}.

(** Step 3: FoldEvaluator on every fold, in order; [n] counts the calls. *)
Fixpoint evaluate_folds (hyper : ParameterSet) (index : list nat)
  (fs : list Fold) (n : nat) : list fold_outcome * nat :=
  match fs with
  | [] => ([], n)
  | f :: fs' =>
      let r := FoldEvaluator hyper index f in
      let '(rs, n') := evaluate_folds hyper index fs' (S n) in
      (r :: rs, n')
  end.

(** Modelled from the spec: ObjectiveFunction.evaluate (section 4.3), i.e.
    the function [mk_objfunc] returns, absent from [_search.py].  Step 4
    (refit and persistence of artifacts) has no part in the score or in the
    history and is left out. *)
Definition evaluate (cfg : config) (ps : ParameterSet) (st : state)
  : score * state :=
  let hyper := hyperparameters cfg ps in
  match FeatureSelector cfg ps with
  | InfeasibleSelection =>
      let tr := {| iteration := length (history st); params := ps;
                   fold_scores := []; aggregated := failedscore cfg;
                   features := []; failed := true |} in
      (failedscore cfg,
       {| history := history st ++ [tr]; best := best st;
          fold_evaluations := fold_evaluations st |})
  | Selected index =>
      let '(rs, n) := evaluate_folds hyper index (folds cfg) (fold_evaluations st) in
      let tr := {| iteration := length (history st); params := ps;
                   fold_scores := fold_score cfg <$> rs;
                   aggregated := summarize cfg rs;
                   features := index; failed := existsb is_failure rs |} in
      (sign_adjust cfg (aggregated tr),
       {| history := history st ++ [tr];
          best := update_best (greater_is_better cfg) tr (best st);
          fold_evaluations := n |})
  end.

(** The driver calls the objective once per proposed parameter set. *)
Definition run (cfg : config) (pss : list ParameterSet) (st : state) : state :=
  fold_left (fun st ps => snd (evaluate cfg ps st)) pss st.

(** One generation after the other. *)
Definition run_generations (cfg : config) (gens : list (list ParameterSet))
  (st : state) : state :=
  fold_left (fun st pop => run cfg pop st) gens st.

End Evaluate.
End Harness.

(** * The genetic search loop

    [gamin] is imported from [._ga], which is not part of [_search.py]; the
    loop is modelled from the specification (section 4.4), with the
    pseudo-random source threaded explicitly (section 9). *)
Module Genetic.

(** Modelled from the spec: the explicit pseudo-random source and the
    parameter distributions of the search space (sections 4.4 and 9), absent
    from [_search.py].  Selection is only constrained to favour fitter
    parents, so the policy is part of the interface. *)
Class RandomSource := {
  rng : Type;
  (** the next raw word of the generator *)
  next_raw : rng -> N * rng;
  distribution : Type;
  (** an independent draw from one parameter's distribution *)
  sample : distribution -> rng -> pyval * rng;
  (** a pair of parents out of the scored population *)
  select_parents :
    list (list (string * pyval) * score) -> rng ->
    (list (string * pyval) * list (string * pyval)) * rng
}.

(** An individual: a ParameterSet, kept in the order of the search space
    because the draws are consumed parameter by parameter. *)
Definition individual := list (string * pyval).

(** Function-or-constant probability parameters: a schedule from the
    generation index to a probability. *)
Inductive schedule :=
| Constant (p : Q)
| PerGeneration (f : nat -> Q).

Definition proba (s : schedule) (generation : nat) : Q :=
  match s with
  | Constant p => p
  | PerGeneration f => f generation
  end.

Record settings := {
  max_iter : nat;
  iter_pergeneration : nat;
  param_crossover_proba : schedule;
  param_mutation_proba : schedule;
  random_sampling_proba : schedule
}.

Section Loop.
Context {R : RandomSource}.

Definition space := list (string * distribution).

(** Modelled from the spec: the random decisions of [gamin] (section 4.4),
    absent from [_search.py].  A uniform draw from the half-open interval
    [0, 1): 53 random bits over 2^53.  An event of probability [p] happens
    when the draw is strictly below [p], so that probability 0 means never
    and probability 1 always. *)
Definition uniform (g : rng) : Q * rng :=
  let '(k, g') := next_raw g in
  (Z.of_N (k mod 2 ^ 53) # 2 ^ 53, g').

(** Independent random sampling from each parameter's distribution. *)
Fixpoint random_individual (sp : space) (g : rng) : individual * rng :=
  match sp with
  | [] => ([], g)
  | (k, d) :: sp' =>
      let '(v, g1) := sample d g in
      let '(ind, g2) := random_individual sp' g1 in
      ((k, v) :: ind, g2)
  end.

(** Initializing: a population of independent random individuals. *)
Fixpoint random_population (sp : space) (n : nat) (g : rng)
  : list individual * rng :=
  match n with
  | O => ([], g)
  | S n' =>
      let '(ind, g1) := random_individual sp g in
      let '(pop, g2) := random_population sp n' g1 in
      (ind :: pop, g2)
  end.

(** Modelled from the spec: crossover in the Breeding state of [gamin]
    (section 4.4), absent from [_search.py].  For every parameter
    independently, with probability [p] the value of the other parent [b] is
    inherited, else that of the designated parent [a]. *)
Fixpoint crossover (p : Q) (a b : individual) (g : rng) : individual * rng :=
  match a, b with
  | (k, x) :: a', (_, y) :: b' =>
      let '(u, g1) := uniform g in
      let '(child, g2) := crossover p a' b' g1 in
      ((k, if Harness.Qltb u p then y else x) :: child, g2)
  | _, _ => (a, g)
  end.

(** Modelled from the spec: mutation in the Breeding state of [gamin]
    (section 4.4), absent from [_search.py].  Every parameter is
    independently resampled from its original distribution with probability
    [p]. *)
Fixpoint mutate (p : Q) (sp : space) (child : individual) (g : rng)
  : individual * rng :=
  match sp, child with
  | (_, d) :: sp', (k, x) :: child' =>
      let '(u, g1) := uniform g in
      if Harness.Qltb u p then
        let '(v, g2) := sample d g1 in
        let '(rest, g3) := mutate p sp' child' g2 in
        ((k, v) :: rest, g3)
      else
        let '(rest, g3) := mutate p sp' child' g1 in
        ((k, x) :: rest, g3)
  | _, _ => (child, g)
  end.

(** Modelled from the spec: the Breeding state of [gamin] (section 4.4),
    absent from [_search.py].  One offspring in generation [generation]:
    crossover, then mutation; separately, with probability
    [random_sampling_proba] the result is discarded for a fresh independent
    random individual. *)
Definition breed (cfg : settings) (sp : space) (generation : nat)
  (a b : individual) (g : rng) : individual * rng :=
  let '(c1, g1) := crossover (proba (param_crossover_proba cfg) generation) a b g in
  let '(c2, g2) := mutate (proba (param_mutation_proba cfg) generation) sp c1 g1 in
  let '(u, g3) := uniform g2 in
  if Harness.Qltb u (proba (random_sampling_proba cfg) generation)
  then random_individual sp g3
  else (c2, g3).

(** Selecting and Breeding: [n] offspring from the scored population. *)
Fixpoint next_population (cfg : settings) (sp : space) (generation : nat)
  (scored : list (individual * score)) (n : nat) (g : rng)
  : list individual * rng :=
  match n with
  | O => ([], g)
  | S n' =>
      let '((a, b), g1) := select_parents scored g in
      let '(child, g2) := breed cfg sp generation a b g1 in
      let '(pop, g3) := next_population cfg sp generation scored n' g2 in
      (child :: pop, g3)
  end.

Context {L : Harness.Learner}.

(** Evaluating: the ObjectiveFunction on every individual, in population
    order. *)
Fixpoint evaluate_population (hc : Harness.config) (pop : list individual)
  (st : Harness.state) : list (individual * score) * Harness.state :=
  match pop with
  | [] => ([], st)
  | ind :: pop' =>
      let '(s, st1) := Harness.evaluate hc (list_to_map ind) st in
      let '(scored, st2) := evaluate_population hc pop' st1 in
      ((ind, s) :: scored, st2)
  end.

(** The generations after the population [pop] has been bred.  The loop
    ends when the evaluated individuals reach [max_iter]; [fuel] bounds the
    number of generations. *)
Fixpoint generations (fuel : nat) (cfg : settings) (sp : space)
  (hc : Harness.config) (generation : nat) (pop : list individual)
  (evaluated : nat) (st : Harness.state) (g : rng) : Harness.state * rng :=
  match fuel with
  | O => (st, g)
  | S fuel' =>
      let '(scored, st1) := evaluate_population hc pop st in
      let evaluated' := (evaluated + length pop)%nat in
      if (max_iter cfg <=? evaluated')%nat then (st1, g)
      else
        let '(pop', g1) :=
          next_population cfg sp (S generation) scored (iter_pergeneration cfg) g in
        generations fuel' cfg sp hc (S generation) pop' evaluated' st1 g1
  end.

(** Modelled from the spec: GeneticSearchLoop (section 4.4), i.e. [gamin] of
    [._ga], absent from [_search.py]. *)
Definition gamin (cfg : settings) (sp : space) (hc : Harness.config)
  (st : Harness.state) (g : rng) : Harness.state * rng :=
  let '(pop, g0) := random_population sp (iter_pergeneration cfg) g in
  generations (max_iter cfg) cfg sp hc 0 pop 0 st g0.

End Loop.
End Genetic.

(** * Reading the model back *)

(** A [RandomoptCV] seen as the [GAoptCV] with the parameter values its
    [fit] passes to [gamin]. *)
Definition as_GAoptCV (r : RandomoptCV.t) : GAoptCV.t :=
  {| GAoptCV.max_iter := RandomoptCV.max_iter r;
     GAoptCV.iter_pergeneration := PyInt 1;
     GAoptCV.param_crossover_proba := PyInt 0;
     GAoptCV.param_mutation_proba := PyInt 0;
     GAoptCV.random_sampling_proba := PyInt 1;
     GAoptCV.random_state := RandomoptCV.random_state r |}.

(** The keywords that make a [GAoptCV] out of the same constructor call. *)
Definition random_search_keywords : kwargs :=
  {[ "iter_pergeneration" := PyInt 1; "param_crossover_proba" := PyInt 0;
     "param_mutation_proba" := PyInt 0; "random_sampling_proba" := PyInt 1 ]}.

(** The result of a method of class [C], seen from an object of class [D]
    whose attributes [d] the method cannot reach. *)
Definition seen_from {C D W A} (d : D) (r : result A * (C * W))
  : result A * (D * W) :=
  (fst r, (d, snd (snd r))).

(** The four valid backend names. *)
Definition backends : list string := ["hyperopt"; "bayesopt"; "gaopt"; "randomopt"].

Section Reachability.
Context {E : Env}.

(** [fit] called once per element of [calls] on the same instance; what
    each call returns or raises is the caller's business. *)
Fixpoint fit_sequence (calls : list fit_args) (s : BayesoptCV.t * World)
  : BayesoptCV.t * World :=
  match calls with
  | [] => s
  | a :: calls' => fit_sequence calls' (snd (BayesoptCV.fit a s))
  end.


End Reachability.


(** [f <$> r] on results. *)
Definition result_map {A B} (f : A -> B) (r : result A) : result B :=
  match r with
  | Ok a => Ok (f a)
  | Raise e => Raise e
  end.

(** BestResult [new] is not worse than [old]: unchanged, or strictly better
    in the configured direction. *)
Definition non_worsening (gib : bool) (old new : option Harness.BestResult) : Prop :=
  match old, new with
  | None, _ => True
  | Some _, None => False
  | Some b, Some b' => b' = b \/ Harness.better gib (snd b') (snd b) = true
  end.

(** ** A small concrete world

    Collaborators that only log their calls.  The search drivers raise
    [KeyboardInterrupt] when the log holds a pending ["SIGINT"]. *)
Module Demo.

Definition log (entry : string) : M (list string) unit :=
  modify (fun w => w ++ [entry]).

Definition interrupted (w : list string) : bool :=
  existsb (String.eqb "SIGINT") w.

Definition driver (name : string) : M (list string) pyval :=
  log name;;
  w ← gets id;
  if interrupted w then raise KeyboardInterrupt else mret PyNone.

Definition base_attrs : list string :=
  ["estimator"; "scoring"; "backend"; "n_jobs"; "pre_dispatch"; "_cvs";
   "save_estimator"; "best_params_"; "best_score_"; "best_estimator_";
   "cv_results_"].

Definition env : Env :=
  {| World := list string;
     Objective := objfunc_args;
     tpe_suggest := PyRef 1;
     np_random_seed := fun _ => log "np.random.seed";
     np_random_RandomState := fun z => mret (PyRef (2 + Z.to_N z));
     fmin := fun _ _ _ _ _ => driver "fmin";
     BayesianOptimization := fun _ _ => log "BayesianOptimization";; mret (PyRef 3);
     run_optimization := fun _ _ _ => driver "run_optimization";
     gamin := fun _ _ _ => driver "gamin";
     mk_objfunc := fun oa => mret oa;
     BaseSearcher_init := fun ba =>
       match ba_backend ba with
       | PyStr b => log ("BaseSearcher.__init__ " +:+ b)
       | _ => raise TypeError
       end;
     BaseSearcher_feature_axis := PyInt 1;
     BaseSearcher_score_summarizer := PyRef 4;
     BaseSearcher_preproc_fit := fun X y _ _ =>
       log "_preproc_fit";;
       mret {| p_X := X; p_y := y; p_Xvalid := PyNone; p_yvalid := PyNone;
               p_cv := PyRef 5; p_param_distributions := PyRef 6 |};
     BaseSearcher_postproc_fit := fun _ _ _ _ _ => log "_postproc_fit";
     random_score := fun _ =>
       w ← gets id; log "_random_scoring";; mret (Fin (Z.of_nat (length w) # 4));
     BaseSearcher_getattr := fun name =>
       if existsb (String.eqb name) base_attrs then mret (PyStr name)
       else raise (AttributeError name);
     py_getattr := fun _ name => mret (PyStr name) |}.

Definition args : common_args := default_args (PyRef 10) (PyRef 11).

Definition data (y : N) : fit_args :=
  {| fa_X := PyRef 20; fa_y := PyRef y; fa_validation_data := PyNone;
     fa_groups := PyNone; fa_feature_groups := PyNone;
     fa_min_n_features := PyInt 2 |}.

Definition hyperopt : HyperoptCV.t :=
  {| HyperoptCV.max_iter := PyInt 32; HyperoptCV.algo := PyRef 1;
     HyperoptCV.random_state := PyNone |}.

Definition randomopt : RandomoptCV.t :=
  {| RandomoptCV.max_iter := PyInt 32; RandomoptCV.random_state := PyNone |}.

(** The [BayesoptCV] the default constructor call yields. *)
Definition bayesopt : BayesoptCV.t :=
  {| BayesoptCV.random_state := PyNone; BayesoptCV.max_iter := PyInt 32;
     BayesoptCV.max_time := PyInf; BayesoptCV.model_type := PyStr "GP";
     BayesoptCV.initial_params := PyNone; BayesoptCV.initial_score := PyNone;
     BayesoptCV.initial_design_numdata := PyInt 5;
     BayesoptCV.initial_design_type := PyStr "random";
     BayesoptCV.acquisition_type := PyStr "EI";
     BayesoptCV.normalize_Y := PyBool true;
     BayesoptCV.exact_feval := PyBool false;
     BayesoptCV.acquisition_optimizer_type := PyStr "lbfgs";
     BayesoptCV.model_update_interval := PyInt 1;
     BayesoptCV.evaluator_type := PyStr "sequential";
     BayesoptCV.batch_size := PyInt 1;
     BayesoptCV.failedscore := PyNone;
     BayesoptCV.opt := None |}.

(** [BayesoptCV(estimator, param_distributions)] in an empty world, and the
    same instance after a first [fit]. *)
Definition constructed : BayesoptCV.t * list string :=
  (bayesopt, ["BaseSearcher.__init__ bayesopt"]).

Definition fitted : BayesoptCV.t * list string :=
  snd (BayesoptCV.fit (E := env) (data 21) constructed).

Definition wrapper : SimpleoptCV.t :=
  {| SimpleoptCV.optcv := Randomopt randomopt; SimpleoptCV.backend := "randomopt" |}.

(** A learner whose score is the number of selected features plus the size
    of the training part; a fold without validation samples fails. *)
Definition learner : Harness.Learner :=
  {| Harness.FoldEvaluator := fun _ index f =>
       match Harness.validation f with
       | [] => Harness.FoldFailure (OtherError "ValueError")
       | _ => Harness.FoldScore
                (Z.of_nat (length index + length (Harness.train f)) # 1)
       end |}.

Definition fold3 : list Harness.Fold :=
  [ {| Harness.train := [2; 3; 4; 5]%nat; Harness.validation := [0; 1]%nat |};
    {| Harness.train := [0; 1; 4; 5]%nat; Harness.validation := [] |};
    {| Harness.train := [0; 1; 2; 3; 4; 5]%nat; Harness.validation := [4; 5]%nat |} ].

(** Three columns in two groups; the flag of group [g] is the parameter
    ["use_" ++ g]. *)
Definition config : Harness.config :=
  {| Harness.feature_groups := Some ["a"; "a"; "b"];
     Harness.flag_key := fun g => "use_" +:+ g;
     Harness.n_features := 3;
     Harness.min_n_features := 2;
     Harness.folds := fold3;
     Harness.failedscore := NaN;
     Harness.score_summarizer := Harness.mean;
     Harness.greater_is_better := true;
     Harness.driver_minimizes := false |}.

(** The same objective function under a driver that minimises: the scoring
    convention is "greater is better", so the driver is given the negated
    score. *)
Definition minimizing : Harness.config :=
  {| Harness.feature_groups := Some ["a"; "a"; "b"];
     Harness.flag_key := fun g => "use_" +:+ g;
     Harness.n_features := 3;
     Harness.min_n_features := 2;
     Harness.folds := fold3;
     Harness.failedscore := NaN;
     Harness.score_summarizer := Harness.mean;
     Harness.greater_is_better := true;
     Harness.driver_minimizes := true |}.

(** A minimising driver, a finite FailureSentinel and one fold, on which
    the learner fails. *)
Definition all_folds_fail : Harness.config :=
  {| Harness.feature_groups := Some ["a"; "a"; "b"];
     Harness.flag_key := fun g => "use_" +:+ g;
     Harness.n_features := 3;
     Harness.min_n_features := 2;
     Harness.folds :=
       [ {| Harness.train := [0; 1; 4; 5]%nat; Harness.validation := [] |} ];
     Harness.failedscore := Fin (3 # 4);
     Harness.score_summarizer := Harness.mean;
     Harness.greater_is_better := true;
     Harness.driver_minimizes := true |}.

Definition only_b : Harness.ParameterSet :=
  {[ "use_a" := PyBool false; "use_b" := PyBool true; "C" := PyInt 10 ]}.

Definition only_a : Harness.ParameterSet :=
  {[ "use_a" := PyBool true; "use_b" := PyBool false; "C" := PyInt 10 ]}.

Definition both : Harness.ParameterSet :=
  {[ "use_a" := PyBool true; "use_b" := PyBool true; "C" := PyInt 1 ]}.

(** A linear congruential generator; a distribution is a non-empty list of
    choices; the parents are the first two individuals. *)
Definition source : Genetic.RandomSource :=
  {| Genetic.rng := N;
     Genetic.next_raw := fun s =>
       let s' := ((6364136223846793005 * s + 1442695040888963407) mod 2 ^ 64)%N in
       (s', s');
     Genetic.distribution := pyval * list pyval;
     Genetic.sample := fun d s =>
       let s' := ((6364136223846793005 * s + 1442695040888963407) mod 2 ^ 64)%N in
       (nth (N.to_nat (s' mod N.of_nat (S (length (snd d))))) (fst d :: snd d) (fst d),
        s');
     Genetic.select_parents := fun scored s =>
       match scored with
       | (a, _) :: (b, _) :: _ => ((a, b), s)
       | (a, _) :: _ => ((a, a), s)
       | [] => (([], []), s)
       end |}.

Definition mother : Genetic.individual := [("C", PyInt 1); ("kernel", PyStr "rbf")].
Definition father : Genetic.individual := [("C", PyInt 10); ("kernel", PyStr "linear")].

Definition space : list (string * (pyval * list pyval)) :=
  [("C", (PyInt 1, [PyInt 10; PyInt 100]));
   ("kernel", (PyStr "rbf", [PyStr "linear"]))].

End Demo.

(** ** The calls and the arguments of the constructors, by backend *)

Section SearchCalls.
Context {E : Env}.

(** The call inside the [try] of [HyperoptCV.fit] (line 311). *)
Definition HyperoptCV_search (me : HyperoptCV.t) (obj : Objective) (p : prepared)
  : M World pyval :=
  fmin obj (p_param_distributions p) (HyperoptCV.algo me) (HyperoptCV.max_iter me)
       (HyperoptCV.random_state me).

(** The call inside the [try] of [BayesoptCV.fit] (line 585), on the
    optimizer [o] that [self.opt] holds. *)
Definition BayesoptCV_search (me : BayesoptCV.t) (o : pyval) : M World pyval :=
  run_optimization o (BayesoptCV.max_iter me) (BayesoptCV.max_time me).

(** The call inside the [try] of [GAoptCV.fit] (lines 775-777). *)
Definition GAoptCV_search (me : GAoptCV.t) (obj : Objective) (p : prepared)
  : M World pyval :=
  cvs ← BaseSearcher_getattr "_cvs";
  gamin obj (p_param_distributions p)
        {| ga_max_iter := GAoptCV.max_iter me;
           ga_iter_pergeneration := GAoptCV.iter_pergeneration me;
           ga_param_crossover_proba := GAoptCV.param_crossover_proba me;
           ga_param_mutation_proba := GAoptCV.param_mutation_proba me;
           ga_random_sampling_proba := GAoptCV.random_sampling_proba me;
           ga_cvsummarizer := cvs |}.

(** The call inside the [try] of [RandomoptCV.fit] (lines 936-938). *)
Definition RandomoptCV_search (me : RandomoptCV.t) (obj : Objective) (p : prepared)
  : M World pyval :=
  cvs ← BaseSearcher_getattr "_cvs";
  gamin obj (p_param_distributions p)
        {| ga_max_iter := RandomoptCV.max_iter me;
           ga_iter_pergeneration := PyInt 1;
           ga_param_crossover_proba := PyInt 0;
           ga_param_mutation_proba := PyInt 0;
           ga_random_sampling_proba := PyInt 1;
           ga_cvsummarizer := cvs |}.

(** What [BayesoptCV.fit] runs up to and including the draw of
    [_random_scoring(y)], when [self.failedscore] is [None] (lines 559-565). *)
Definition BayesoptCV_draw (me : BayesoptCV.t) (a : fit_args)
  : M World (prepared * score) :=
  p ← BaseSearcher_preproc_fit (fa_X a) (fa_y a) (fa_validation_data a)
                               (fa_feature_groups a);
  np_random_seed (BayesoptCV.random_state me);;
  x ← random_score (p_y p);
  mret (p, x).

End SearchCalls.

(** A [BayesoptCV] without what its [fit] calls leave on it. *)
Definition forget_run (b : BayesoptCV.t) : BayesoptCV.t :=
  {| BayesoptCV.random_state := BayesoptCV.random_state b;
     BayesoptCV.max_iter := BayesoptCV.max_iter b;
     BayesoptCV.max_time := BayesoptCV.max_time b;
     BayesoptCV.model_type := BayesoptCV.model_type b;
     BayesoptCV.initial_params := BayesoptCV.initial_params b;
     BayesoptCV.initial_score := BayesoptCV.initial_score b;
     BayesoptCV.initial_design_numdata := BayesoptCV.initial_design_numdata b;
     BayesoptCV.initial_design_type := BayesoptCV.initial_design_type b;
     BayesoptCV.acquisition_type := BayesoptCV.acquisition_type b;
     BayesoptCV.normalize_Y := BayesoptCV.normalize_Y b;
     BayesoptCV.exact_feval := BayesoptCV.exact_feval b;
     BayesoptCV.acquisition_optimizer_type := BayesoptCV.acquisition_optimizer_type b;
     BayesoptCV.model_update_interval := BayesoptCV.model_update_interval b;
     BayesoptCV.evaluator_type := BayesoptCV.evaluator_type b;
     BayesoptCV.batch_size := BayesoptCV.batch_size b;
     BayesoptCV.failedscore := PyNone;
     BayesoptCV.opt := None |}.

(** The search configuration of a backend instance: the attributes its
    constructor sets from its arguments. *)
Definition configuration (s : searcher) : searcher :=
  match s with
  | Bayesopt b => Bayesopt (forget_run b)
  | _ => s
  end.

(** The class each backend name stands for. *)
Definition backend_class (backend : string) : string :=
  if String.eqb backend "hyperopt" then "HyperoptCV"
  else if String.eqb backend "bayesopt" then "BayesoptCV"
  else if String.eqb backend "gaopt" then "GAoptCV"
  else "RandomoptCV".

(** The keywords each backend's [__init__] has besides the shared ones. *)
Definition signature_keywords (backend : string) : gset string :=
  if String.eqb backend "hyperopt" then {[ "algo" ]}
  else if String.eqb backend "bayesopt" then BayesoptCV.keywords
  else if String.eqb backend "gaopt" then GAoptCV.keywords
  else ∅.

(** The defaults in the signature of [GAoptCV.__init__]. *)
Definition GAoptCV_default (name : string) : pyval :=
  if String.eqb name "iter_pergeneration" then PyInt 8
  else if String.eqb name "param_crossover_proba" then PyFloat (Fin (1 # 2))
  else PyFloat (Fin (1 # 100)).

(** The defaults in the signature of [BayesoptCV.__init__]. *)
Definition BayesoptCV_default (name : string) : pyval :=
  if String.eqb name "max_time" then PyInf
  else if String.eqb name "model_type" then PyStr "GP"
  else if String.eqb name "initial_design_numdata" then PyInt 5
  else if String.eqb name "initial_design_type" then PyStr "random"
  else if String.eqb name "acquisition_type" then PyStr "EI"
  else if String.eqb name "normalize_Y" then PyBool true
  else if String.eqb name "exact_feval" then PyBool false
  else if String.eqb name "acquisition_optimizer_type" then PyStr "lbfgs"
  else if String.eqb name "model_update_interval" then PyInt 1
  else if String.eqb name "evaluator_type" then PyStr "sequential"
  else if String.eqb name "batch_size" then PyInt 1
  else PyNone.

(** The concrete world with one broken collaborator: [_preproc_fit]
    (stage ["preproc"]), [_random_scoring] (stage ["draw"]) or the search
    drivers (stage ["search"]) raise [e]. *)
Definition broken_env (stage : string) (e : exn) : Env :=
  {| World := list string;
     Objective := objfunc_args;
     tpe_suggest := @tpe_suggest Demo.env;
     np_random_seed := @np_random_seed Demo.env;
     np_random_RandomState := @np_random_RandomState Demo.env;
     fmin := fun obj sp al n rs =>
       if String.eqb stage "search" then Demo.log "fmin";; raise e
       else @fmin Demo.env obj sp al n rs;
     BayesianOptimization := @BayesianOptimization Demo.env;
     run_optimization := fun o n t =>
       if String.eqb stage "search" then Demo.log "run_optimization";; raise e
       else @run_optimization Demo.env o n t;
     gamin := fun obj sp ga =>
       if String.eqb stage "search" then Demo.log "gamin";; raise e
       else @gamin Demo.env obj sp ga;
     mk_objfunc := @mk_objfunc Demo.env;
     BaseSearcher_init := @BaseSearcher_init Demo.env;
     BaseSearcher_feature_axis := @BaseSearcher_feature_axis Demo.env;
     BaseSearcher_score_summarizer := @BaseSearcher_score_summarizer Demo.env;
     BaseSearcher_preproc_fit := fun X y v fg =>
       if String.eqb stage "preproc" then Demo.log "_preproc_fit";; raise e
       else @BaseSearcher_preproc_fit Demo.env X y v fg;
     BaseSearcher_postproc_fit := @BaseSearcher_postproc_fit Demo.env;
     random_score := fun y =>
       if String.eqb stage "draw" then Demo.log "_random_scoring";; raise e
       else @random_score Demo.env y;
     BaseSearcher_getattr := @BaseSearcher_getattr Demo.env;
     py_getattr := @py_getattr Demo.env |}.



(** [SimpleoptCV(..., backend="gaopt", iter_pergeneration=1, ...)] on the
    concrete world. *)
Definition ga_wrapper : SimpleoptCV.t :=
  {| SimpleoptCV.optcv := GAopt (as_GAoptCV Demo.randomopt);
     SimpleoptCV.backend := "gaopt" |}.

(** * Properties *)

(** ** The monad *)
Section MonadFacts.
Context {S : Type}.

Lemma bind_ok {A B} (m : M S A) (k : A -> M S B) s a s' :
  m s = (Ok a, s') -> (m ≫= k) s = k a s'.
Proof. intros H. unfold mbind, M_bind. now rewrite H. Qed.

Lemma bind_raise {A B} (m : M S A) (k : A -> M S B) s e s' :
  m s = (Raise e, s') -> (m ≫= k) s = (Raise e, s').
Proof. intros H. unfold mbind, M_bind. now rewrite H. Qed.


End MonadFacts.

Lemma on_world_eq {C W A} (m : M W A) (c : C) (w : W) r w' :
  m w = (r, w') -> on_world m (c, w) = (r, (c, w')).
Proof. intros H. unfold on_world. cbn. now rewrite H. Qed.

Lemma on_world_self {C W A} (m : M W A) (s : C * W) :
  fst (snd (on_world m s)) = fst s.
Proof. unfold on_world. now destruct (m (snd s)). Qed.

Section Interrupt.
Context {E : Env}.

End Interrupt.

Section Interrupt2.
Context {E : Env}.


(** The [BayesianOptimization(...)] call stands before the [try]: an
    interrupt that reaches [fit] from there is not caught. *)
Lemma BayesoptCV_constructor_interrupt_propagates a s p oa b1 w1 obj w2 w3 :
  BayesoptCV.fit_setup a s = (Ok (p, oa), (b1, w1)) ->
  mk_objfunc oa w1 = (Ok obj, w2) ->
  BayesianOptimization obj (BayesoptCV.optimizer_kwargs b1 p) w2
    = (Raise KeyboardInterrupt, w3) ->
  BayesoptCV.fit a s = (Raise KeyboardInterrupt, (b1, w3)).
Proof.
  intros Hsetup Hobj Hnew. unfold BayesoptCV.fit.
  rewrite (bind_ok _ _ _ _ _ Hsetup).
  rewrite (bind_ok _ _ _ _ _ (on_world_eq _ _ _ _ _ Hobj)).
  unfold self at 1. erewrite bind_ok by reflexivity. cbn [fst].
  now rewrite (bind_raise _ _ _ _ _ (on_world_eq _ _ _ _ _ Hnew)).
Qed.



End Interrupt2.

Ltac run_step :=
  match goal with
  | |- context [match ?m ?w with _ => _ end] =>
      lazymatch type of (m w) with
      | (result _ * _)%type => destruct (m w) as [[?|?] ?]; cbn; cbn [fst snd]
      end
  end.

Ltac exn_step :=
  match goal with
  | |- context [match ?e with KeyboardInterrupt => _ | _ => _ end] =>
      is_var e; destruct e; cbn; cbn [fst snd]
  end.

Ltac run_all := repeat (run_step || exn_step); try reflexivity.

Section RandomIsGA.
Context {E : Env}.


Lemma RandomoptCV_fit_as_GAoptCV a r w :
  RandomoptCV.fit a (r, w) = seen_from r (GAoptCV.fit a (as_GAoptCV r, w)).
Proof.
  unfold RandomoptCV.fit, GAoptCV.fit, RandomoptCV.fit_setup, GAoptCV.fit_setup,
    seen_from, try_except_KeyboardInterrupt_pass, self, gets, on_world,
    mbind, M_bind, mret, M_ret. cbn; cbn [fst snd].
  run_all.
Qed.

Lemma GAoptCV_fit_keeps_self a s : fst (snd (GAoptCV.fit a s)) = fst s.
Proof.
  unfold GAoptCV.fit, GAoptCV.fit_setup,
    try_except_KeyboardInterrupt_pass, self, gets, on_world,
    mbind, M_bind, mret, M_ret. cbn; cbn [fst snd].
  run_all.
Qed.

Lemma GAoptCV_new_random_search c w :
  GAoptCV.new c random_search_keywords w
  = (result_map as_GAoptCV (fst (RandomoptCV.new c ∅ w)),
     snd (RandomoptCV.new c ∅ w)).
Proof.
  unfold GAoptCV.new, RandomoptCV.new.
  replace (bool_decide (dom random_search_keywords ⊆ GAoptCV.keywords)) with true
    by (symmetry; apply bool_decide_eq_true; vm_compute; set_solver).
  rewrite bool_decide_eq_true_2 by set_solver.
  unfold GAoptCV.__init__, RandomoptCV.__init__, mk_random_state, mbind, M_bind, mret, M_ret.
  destruct (BaseSearcher_init _ w) as [[[]|e] w1]; cbn; [|reflexivity].
  destruct (c_random_state c); cbn; [|reflexivity].
  destruct (np_random_RandomState z w1) as [[v|e] w2]; reflexivity.
Qed.
End RandomIsGA.

Section Sentinel.
Context {E : Env}.

Lemma objfunc_kwargs_failedscore p a fs w oa w' :
  objfunc_kwargs p a fs w = (Ok oa, w') -> oa_failedscore oa = fs.
Proof.
  unfold objfunc_kwargs, mbind, M_bind, mret, M_ret.
  repeat run_step; intros H; inversion H; reflexivity.
Qed.




(** What [BayesoptCV.fit_setup] does to [self.failedscore] and what it hands
    to [mk_objfunc]. *)
Lemma BayesoptCV_fit_setup_failedscore a s p oa s' :
  BayesoptCV.fit_setup a s = (Ok (p, oa), s') ->
  oa_failedscore oa = BayesoptCV.failedscore (fst s') /\
  (BayesoptCV.failedscore (fst s) <> PyNone ->
   BayesoptCV.failedscore (fst s') = BayesoptCV.failedscore (fst s)) /\
  (BayesoptCV.failedscore (fst s) = PyNone ->
   exists w1 x w2, random_score (p_y p) w1 = (Ok x, w2) /\
                   BayesoptCV.failedscore (fst s') = PyFloat x).
Proof.
  unfold BayesoptCV.fit_setup, self, gets, on_world, mbind, M_bind, mret, M_ret.
  destruct (BaseSearcher_preproc_fit _ _ _ _ _) as [[p0|e] w1]; cbn [fst snd];
    [|discriminate].
  destruct (np_random_seed _ _) as [[[]|e] w2]; cbn [fst snd]; [|discriminate].
  destruct (BayesoptCV.failedscore (fst s)) eqn:Hfs; cbn [fst snd].
  1: { unfold BaseSearcher_random_scoring, set_self, modify, mbind, M_bind, mret, M_ret.
       destruct (random_score (p_y p0) w2) as [[q|e] w3] eqn:Hq; cbn [fst snd];
         [|discriminate].
       destruct (objfunc_kwargs _ _ _ _) as [[oa0|e] w4] eqn:Hkw; [|discriminate].
       intros H; inversion H; subst; cbn [fst snd BayesoptCV.failedscore BayesoptCV.set_failedscore].
       split; [eapply objfunc_kwargs_failedscore, Hkw|].
       split; [congruence|]. intros _. eauto. }
  all: destruct (objfunc_kwargs _ _ _ _) as [[oa0|e] w4] eqn:Hkw; [|discriminate];
    intros H; inversion H; subst; cbn [fst snd]; rewrite Hfs in Hkw |- *;
    (split; [eapply objfunc_kwargs_failedscore, Hkw|]);
    (split; [reflexivity|discriminate]).
Qed.

(** [fit] leaves [self.failedscore] as it is, unless it was [None]: then it
    may become the float [_random_scoring] drew. *)
Lemma BayesoptCV_fit_failedscore a s :
  BayesoptCV.failedscore (fst (snd (BayesoptCV.fit a s)))
    = BayesoptCV.failedscore (fst s) \/
  (BayesoptCV.failedscore (fst s) = PyNone /\
   exists x, BayesoptCV.failedscore (fst (snd (BayesoptCV.fit a s))) = PyFloat x).
Proof.
  unfold BayesoptCV.fit, BayesoptCV.fit_setup, BaseSearcher_random_scoring,
    try_except_KeyboardInterrupt_pass, set_self, modify, self, gets, on_world,
    raise, mbind, M_bind, mret, M_ret.
  cbn; cbn [fst snd].
  destruct (BaseSearcher_preproc_fit _ _ _ _ _) as [[p0|e] w1]; cbn [fst snd];
    [|now left].
  destruct (np_random_seed _ _) as [[[]|e] w2]; cbn [fst snd]; [|now left].
  destruct (BayesoptCV.failedscore (fst s)) eqn:Hfs; cbn [fst snd].
  1: { destruct (random_score (p_y p0) w2) as [[q|e] w3]; cbn [fst snd];
         [|left; congruence].
       right. split; [reflexivity|]. exists q.
       repeat (run_step || exn_step); reflexivity. }
  all: left; repeat (run_step || exn_step); cbn; congruence.
Qed.
End Sentinel.

Section SentinelInvariant.
Context {E : Env}.

Lemma BayesoptCV_new_failedscore c kw w b w' :
  BayesoptCV.new c kw w = (Ok b, w') -> BayesoptCV.failedscore b = PyNone.
Proof.
  unfold BayesoptCV.new, BayesoptCV.__init__, raise, mbind, M_bind, mret, M_ret.
  case_bool_decide; [|discriminate].
  destruct (BaseSearcher_init _ w) as [[[]|e] w1]; [|discriminate].
  intros Hb; inversion Hb; reflexivity.
Qed.


Lemma BayesoptCV_fit_after_setup a s p oa s' :
  BayesoptCV.fit_setup a s = (Ok (p, oa), s') ->
  BayesoptCV.failedscore (fst (snd (BayesoptCV.fit a s)))
    = BayesoptCV.failedscore (fst s').
Proof.
  intros Hsetup. unfold BayesoptCV.fit. rewrite (bind_ok _ _ _ _ _ Hsetup).
  unfold try_except_KeyboardInterrupt_pass, set_self, modify, self, gets, on_world,
    raise, mbind, M_bind, mret, M_ret.
  cbn; cbn [fst snd].
  repeat (run_step || exn_step); reflexivity.
Qed.

Lemma fit_sequence_failedscore calls s :
  BayesoptCV.failedscore (fst s) <> PyNone ->
  BayesoptCV.failedscore (fst (fit_sequence calls s)) = BayesoptCV.failedscore (fst s).
Proof.
  revert s. induction calls as [|a calls IH]; intros s Hset; [reflexivity|].
  cbn [fit_sequence].
  destruct (BayesoptCV_fit_failedscore a s) as [Heq|[Hnone _]]; [|contradiction].
  rewrite IH; rewrite Heq; auto.
Qed.

End SentinelInvariant.

(** ** How [fit] goes on from [mk_objfunc] *)
Section FitSteps.
Context {E : Env}.

(** What follows the [try] statement, given how its body ended. *)
Lemma HyperoptCV_fit_outcome a s p oa h1 w1 obj w2 r w3 :
  HyperoptCV.fit_setup a s = (Ok (p, oa), (h1, w1)) ->
  mk_objfunc oa w1 = (Ok obj, w2) ->
  HyperoptCV_search h1 obj p w2 = (r, w3) ->
  HyperoptCV.fit a s
  = match r with
    | Raise KeyboardInterrupt | Ok _ => on_world (postproc_and_return p a) (h1, w3)
    | Raise e => (Raise e, (h1, w3))
    end.
Proof.
  intros Hsetup Hobj Hsearch. unfold HyperoptCV.fit, HyperoptCV_search in *.
  rewrite (bind_ok _ _ _ _ _ Hsetup).
  rewrite (bind_ok _ _ _ _ _ (on_world_eq _ _ _ _ _ Hobj)).
  unfold try_except_KeyboardInterrupt_pass, self, gets, on_world,
    mbind, M_bind, mret, M_ret.
  cbn [fst snd]. rewrite Hsearch.
  destruct r as [v|e]; [reflexivity|]. destruct e; reflexivity.
Qed.

Lemma BayesoptCV_fit_outcome a s p oa b1 w1 obj w2 o w3 r w4 :
  BayesoptCV.fit_setup a s = (Ok (p, oa), (b1, w1)) ->
  mk_objfunc oa w1 = (Ok obj, w2) ->
  BayesianOptimization obj (BayesoptCV.optimizer_kwargs b1 p) w2 = (Ok o, w3) ->
  BayesoptCV_search (BayesoptCV.set_opt o b1) o w3 = (r, w4) ->
  BayesoptCV.fit a s
  = match r with
    | Raise KeyboardInterrupt | Ok _ =>
        on_world (postproc_and_return p a) (BayesoptCV.set_opt o b1, w4)
    | Raise e => (Raise e, (BayesoptCV.set_opt o b1, w4))
    end.
Proof.
  intros Hsetup Hobj Hnew Hsearch. unfold BayesoptCV.fit, BayesoptCV_search in *.
  rewrite (bind_ok _ _ _ _ _ Hsetup).
  rewrite (bind_ok _ _ _ _ _ (on_world_eq _ _ _ _ _ Hobj)).
  unfold self at 1. erewrite bind_ok by reflexivity. cbn [fst].
  rewrite (bind_ok _ _ _ _ _ (on_world_eq _ _ _ _ _ Hnew)).
  unfold set_self, modify. erewrite bind_ok by reflexivity. cbn [fst snd].
  unfold try_except_KeyboardInterrupt_pass, self, gets, on_world,
    mbind, M_bind, mret, M_ret.
  cbn [fst snd BayesoptCV.opt BayesoptCV.max_iter BayesoptCV.max_time
       BayesoptCV.set_opt] in *.
  rewrite Hsearch.
  destruct r as [v|e]; [reflexivity|]. destruct e; reflexivity.
Qed.

Lemma GAoptCV_fit_outcome a s p oa g1 w1 obj w2 r w3 :
  GAoptCV.fit_setup a s = (Ok (p, oa), (g1, w1)) ->
  mk_objfunc oa w1 = (Ok obj, w2) ->
  GAoptCV_search g1 obj p w2 = (r, w3) ->
  GAoptCV.fit a s
  = match r with
    | Raise KeyboardInterrupt | Ok _ => on_world (postproc_and_return p a) (g1, w3)
    | Raise e => (Raise e, (g1, w3))
    end.
Proof.
  intros Hsetup Hobj Hsearch. unfold GAoptCV.fit, GAoptCV_search in *.
  rewrite (bind_ok _ _ _ _ _ Hsetup).
  rewrite (bind_ok _ _ _ _ _ (on_world_eq _ _ _ _ _ Hobj)).
  unfold try_except_KeyboardInterrupt_pass, self, gets, on_world,
    mbind, M_bind, mret, M_ret in *.
  cbn [fst snd].
  destruct (BaseSearcher_getattr "_cvs" w2) as [[cvs|e0] w2']; cbn [fst snd] in *.
  - rewrite Hsearch. destruct r as [v|e]; [reflexivity|]. destruct e; reflexivity.
  - inversion Hsearch; subst. destruct e0; reflexivity.
Qed.

Lemma RandomoptCV_fit_outcome a s p oa r1 w1 obj w2 r w3 :
  RandomoptCV.fit_setup a s = (Ok (p, oa), (r1, w1)) ->
  mk_objfunc oa w1 = (Ok obj, w2) ->
  RandomoptCV_search r1 obj p w2 = (r, w3) ->
  RandomoptCV.fit a s
  = match r with
    | Raise KeyboardInterrupt | Ok _ => on_world (postproc_and_return p a) (r1, w3)
    | Raise e => (Raise e, (r1, w3))
    end.
Proof.
  intros Hsetup Hobj Hsearch. unfold RandomoptCV.fit, RandomoptCV_search in *.
  rewrite (bind_ok _ _ _ _ _ Hsetup).
  rewrite (bind_ok _ _ _ _ _ (on_world_eq _ _ _ _ _ Hobj)).
  unfold try_except_KeyboardInterrupt_pass, self, gets, on_world,
    mbind, M_bind, mret, M_ret in *.
  cbn [fst snd].
  destruct (BaseSearcher_getattr "_cvs" w2) as [[cvs|e0] w2']; cbn [fst snd] in *.
  - rewrite Hsearch. destruct r as [v|e]; [reflexivity|]. destruct e; reflexivity.
  - inversion Hsearch; subst. destruct e0; reflexivity.
Qed.







End FitSteps.

(** ** Properties of [_search.py] *)
Section SearchProperties.
Context {E : Env}.


(** C3: [RandomoptCV.fit] is [GAoptCV.fit] at [iter_pergeneration=1],
    [param_crossover_proba=0], [param_mutation_proba=0],
    [random_sampling_proba=1]: on every input and in every state of the
    collaborators both make the same calls, [gamin] included, and so end
    alike, with the same return or exception and the same heap.  The two
    constructors agree in the same way. *)
Theorem RandomoptCV_is_GAoptCV_specialized :
  (forall a r w,
      RandomoptCV.fit a (r, w) = seen_from r (GAoptCV.fit a (as_GAoptCV r, w)) /\
      fst (snd (GAoptCV.fit a (as_GAoptCV r, w))) = as_GAoptCV r) /\
  (forall c w,
      GAoptCV.new c random_search_keywords w
      = (result_map as_GAoptCV (fst (RandomoptCV.new c ∅ w)),
         snd (RandomoptCV.new c ∅ w))).
Proof.
  split.
  - intros a r w. split.
    + apply RandomoptCV_fit_as_GAoptCV.
    + apply GAoptCV_fit_keeps_self.
  - apply GAoptCV_new_random_search.
Qed.


(** C7: [SimpleoptCV(..., backend=b, **kwargs)] raises [Exception] at once,
    before any collaborator runs, when [b] is none of "hyperopt", "bayesopt",
    "gaopt", "randomopt"; for each of the four names it calls the
    constructor of the matching backend class with the same arguments and
    wraps the instance it gets. *)
Theorem SimpleoptCV_backend_selection c kw w :
  (forall b,
      b ∉ backends ->
      SimpleoptCV.__init__ c b kw w
      = (Raise (Exception ("`backend` " +:+ b +:+ " is not supported.")), w)) /\
  SimpleoptCV.__init__ c "hyperopt" kw w
  = (result_map (fun o => {| SimpleoptCV.optcv := Hyperopt o;
                             SimpleoptCV.backend := "hyperopt" |})
                (fst (HyperoptCV.new c kw w)),
     snd (HyperoptCV.new c kw w)) /\
  SimpleoptCV.__init__ c "bayesopt" kw w
  = (result_map (fun o => {| SimpleoptCV.optcv := Bayesopt o;
                             SimpleoptCV.backend := "bayesopt" |})
                (fst (BayesoptCV.new c kw w)),
     snd (BayesoptCV.new c kw w)) /\
  SimpleoptCV.__init__ c "gaopt" kw w
  = (result_map (fun o => {| SimpleoptCV.optcv := GAopt o;
                             SimpleoptCV.backend := "gaopt" |})
                (fst (GAoptCV.new c kw w)),
     snd (GAoptCV.new c kw w)) /\
  SimpleoptCV.__init__ c "randomopt" kw w
  = (result_map (fun o => {| SimpleoptCV.optcv := Randomopt o;
                             SimpleoptCV.backend := "randomopt" |})
                (fst (RandomoptCV.new c kw w)),
     snd (RandomoptCV.new c kw w)).
Proof.
  split.
  { intros b Hb. unfold backends in Hb.
    repeat (apply not_elem_of_cons in Hb; destruct Hb as [? Hb]).
    unfold SimpleoptCV.__init__.
    repeat (rewrite (proj2 (String.eqb_neq _ _)) by assumption).
    reflexivity. }
  unfold SimpleoptCV.__init__, mbind, M_bind, mret, M_ret; cbn.
  repeat split.
  - destruct (HyperoptCV.new c kw w) as [[o|e] w']; reflexivity.
  - destruct (BayesoptCV.new c kw w) as [[o|e] w']; reflexivity.
  - destruct (GAoptCV.new c kw w) as [[o|e] w']; reflexivity.
  - destruct (RandomoptCV.new c kw w) as [[o|e] w']; reflexivity.
Qed.

(** C9: for every name that [SimpleoptCV] does not define itself, attribute
    access on the wrapper is attribute access on the wrapped backend
    instance.  This holds for [best_params_], [best_score_],
    [best_estimator_], [cv_results_] and [fit]; and [fit] is the method of
    the backend's class. *)
Theorem SimpleoptCV_getattr_delegates (me : SimpleoptCV.t) :
  (forall name,
      ~ SimpleoptCV.defined name ->
      SimpleoptCV.getattr me name = searcher_getattr (SimpleoptCV.optcv me) name) /\
  Forall (fun name =>
            SimpleoptCV.getattr me name
            = searcher_getattr (SimpleoptCV.optcv me) name)
         ["best_params_"; "best_score_"; "best_estimator_"; "cv_results_"; "fit"] /\
  searcher_getattr (SimpleoptCV.optcv me) "fit"
  = mret (BoundMethod (class_name (SimpleoptCV.optcv me)) "fit").
Proof.
  assert (Hdel : forall name,
             ~ SimpleoptCV.defined name ->
             SimpleoptCV.getattr me name
             = searcher_getattr (SimpleoptCV.optcv me) name).
  { intros name Hname. unfold SimpleoptCV.defined in Hname.
    apply not_elem_of_union in Hname as [Hname Hobject].
    apply not_elem_of_union in Hname as [Hinstance Hmethod].
    apply not_elem_of_union in Hinstance as [Hoptcv Hbackend].
    apply not_elem_of_singleton in Hoptcv, Hbackend.
    unfold SimpleoptCV.getattr, SimpleoptCV.instance_attr, SimpleoptCV.__getattr__.
    rewrite (proj2 (String.eqb_neq name "optcv") Hoptcv).
    rewrite (proj2 (String.eqb_neq name "backend") Hbackend).
    rewrite (bool_decide_eq_false_2 _ Hmethod), (bool_decide_eq_false_2 _ Hobject).
    reflexivity. }
  split; [exact Hdel|]. split.
  - repeat constructor; apply Hdel; unfold SimpleoptCV.defined;
      apply (bool_decide_eq_false_1 _); vm_compute; reflexivity.
  - unfold searcher_getattr. destruct (SimpleoptCV.optcv me); cbn;
      rewrite bool_decide_eq_true_2 by (vm_compute; set_solver); reflexivity.
Qed.

(** C10: [__init__] leaves [self.failedscore] of a [BayesoptCV] at [None].
    Once it is set, no later [fit] computes it again: whatever the data of
    the later calls, the attribute keeps its value and that value is what
    [mk_objfunc] receives.  It is set by the first [fit] that gets as far,
    from that call's [y]. *)
Theorem BayesoptCV_failedscore_fixed :
  (forall c kw w b w',
      BayesoptCV.new c kw w = (Ok b, w') -> BayesoptCV.failedscore b = PyNone) /\
  (forall s v calls,
      BayesoptCV.failedscore (fst s) = v ->
      v <> PyNone ->
      BayesoptCV.failedscore (fst (fit_sequence calls s)) = v /\
      forall a p oa s',
        BayesoptCV.fit_setup a (fit_sequence calls s) = (Ok (p, oa), s') ->
        oa_failedscore oa = v /\ BayesoptCV.failedscore (fst s') = v) /\
  (forall a s p oa s',
      BayesoptCV.failedscore (fst s) = PyNone ->
      BayesoptCV.fit_setup a s = (Ok (p, oa), s') ->
      exists w1 x w2,
        random_score (p_y p) w1 = (Ok x, w2) /\
        oa_failedscore oa = PyFloat x /\
        BayesoptCV.failedscore (fst (snd (BayesoptCV.fit a s))) = PyFloat x).
Proof.
  split; [exact BayesoptCV_new_failedscore|].
  split.
  - intros s v calls Hv Hset. subst v.
    pose proof (fit_sequence_failedscore calls s Hset) as Hseq.
    split; [exact Hseq|].
    intros a p oa s' Hsetup.
    destruct (BayesoptCV_fit_setup_failedscore _ _ _ _ _ Hsetup) as (Hoa & Hkeep & _).
    rewrite Hoa, Hkeep by congruence. auto.
  - intros a s p oa s' Hnone Hsetup.
    destruct (BayesoptCV_fit_setup_failedscore _ _ _ _ _ Hsetup) as (Hoa & _ & Hdraw).
    destruct (Hdraw Hnone) as (w1 & q & w2 & Hscore & Hfs).
    exists w1, q, w2. rewrite (BayesoptCV_fit_after_setup _ _ _ _ _ Hsetup), Hoa.
    auto.
Qed.

End SearchProperties.

(** ** The harness *)
Section HarnessFacts.
Context {L : Harness.Learner}.

Lemma evaluate_folds_map hyper index fs n :
  Harness.evaluate_folds hyper index fs n
  = (Harness.FoldEvaluator hyper index <$> fs, (n + length fs)%nat).
Proof.
  revert n. induction fs as [|f fs IH]; intros n; cbn.
  - now rewrite Nat.add_0_r.
  - rewrite IH. f_equal. lia.
Qed.

Lemma FeatureSelector_infeasible cfg labels ps :
  Harness.feature_groups cfg = Some labels ->
  (length (Harness.selected_columns cfg labels ps) < Harness.min_n_features cfg)%nat ->
  Harness.FeatureSelector cfg ps = Harness.InfeasibleSelection.
Proof.
  intros Hfg Hlt. unfold Harness.FeatureSelector. rewrite Hfg.
  now rewrite (proj2 (Nat.ltb_lt _ _) Hlt).
Qed.

Lemma evaluate_selected cfg ps st index :
  Harness.FeatureSelector cfg ps = Harness.Selected index ->
  let rs := Harness.FoldEvaluator (Harness.hyperparameters cfg ps) index
              <$> Harness.folds cfg in
  let tr := {| Harness.iteration := length (Harness.history st);
               Harness.params := ps;
               Harness.fold_scores := Harness.fold_score cfg <$> rs;
               Harness.aggregated := Harness.summarize cfg rs;
               Harness.features := index;
               Harness.failed := existsb Harness.is_failure rs |} in
  Harness.evaluate cfg ps st
  = (Harness.sign_adjust cfg (Harness.summarize cfg rs),
     {| Harness.history := Harness.history st ++ [tr];
        Harness.best :=
          Harness.update_best (Harness.greater_is_better cfg) tr (Harness.best st);
        Harness.fold_evaluations :=
          (Harness.fold_evaluations st + length (Harness.folds cfg))%nat |}).
Proof.
  intros Hsel. unfold Harness.evaluate. rewrite Hsel, evaluate_folds_map.
  reflexivity.
Qed.

End HarnessFacts.

(** ** Order facts about scores *)

Lemma Qltb_lt a b : Harness.Qltb a b = true <-> (a < b)%Q.
Proof.
  unfold Harness.Qltb. rewrite negb_true_iff. split.
  - intros H. apply Qnot_le_lt. intros Hle.
    apply Qle_bool_iff in Hle. congruence.
  - intros H. destruct (Qle_bool b a) eqn:Hb; [|reflexivity].
    apply Qle_bool_iff in Hb. exfalso. eapply Qlt_not_le; eassumption.
Qed.

Lemma Qltb_ge a b : (b <= a)%Q -> Harness.Qltb a b = false.
Proof.
  intros H. unfold Harness.Qltb. apply negb_false_iff. now apply Qle_bool_iff.
Qed.

Lemma better_trans gib a b c :
  Harness.better gib a b = true -> Harness.better gib b c = true ->
  Harness.better gib a c = true.
Proof.
  destruct a as [|x], b as [|y], c as [|z]; cbn; try discriminate.
  destruct gib; rewrite !Qltb_lt; intros H1 H2; eapply Qlt_trans; eassumption.
Qed.

Lemma better_irrefl gib a : Harness.better gib a a = false.
Proof.
  destruct a as [|x]; [reflexivity|]. cbn.
  destruct gib; apply Qltb_ge, Qle_refl.
Qed.

Lemma non_worsening_refl gib b : non_worsening gib b b.
Proof. destruct b; cbn; auto. Qed.

Lemma non_worsening_trans gib b1 b2 b3 :
  non_worsening gib b1 b2 -> non_worsening gib b2 b3 -> non_worsening gib b1 b3.
Proof.
  destruct b1 as [x|], b2 as [y|], b3 as [z|]; cbn; try tauto.
  intros [->|H1] [->|H2]; auto. right. eapply better_trans; eassumption.
Qed.

Lemma update_best_non_worsening gib tr b :
  non_worsening gib b (Harness.update_best gib tr b).
Proof.
  destruct b as [[p s]|]; cbn; [|exact I].
  destruct (Harness.better gib (Harness.aggregated tr) s) eqn:Hb; cbn; auto.
Qed.

Section BestFacts.
Context {L : Harness.Learner}.

(** What one trial does to BestResult. *)
Lemma evaluate_best cfg ps st :
  Harness.best (snd (Harness.evaluate cfg ps st)) = Harness.best st \/
  exists tr,
    last (Harness.history (snd (Harness.evaluate cfg ps st))) = Some tr /\
    Harness.params tr = ps /\
    Harness.best (snd (Harness.evaluate cfg ps st))
      = Some (ps, Harness.aggregated tr) /\
    match Harness.best st with
    | None => is_finite (Harness.aggregated tr) = true
    | Some b =>
        Harness.better (Harness.greater_is_better cfg) (Harness.aggregated tr) (snd b)
        = true
    end.
Proof.
  unfold Harness.evaluate.
  destruct (Harness.FeatureSelector cfg ps) as [index|]; [|now left].
  rewrite evaluate_folds_map. cbn [snd Harness.best Harness.history].
  set (tr := Harness.Build_Trial _ _ _ _ _ _).
  unfold Harness.update_best.
  destruct (Harness.best st) as [[p s]|].
  - destruct (Harness.better _ (Harness.aggregated tr) s) eqn:Hb; [|now left].
    right. exists tr. rewrite last_snoc. auto.
  - destruct (is_finite (Harness.aggregated tr)) eqn:Hf; [|now left].
    right. exists tr. rewrite last_snoc. auto.
Qed.

Lemma evaluate_non_worsening cfg ps st :
  non_worsening (Harness.greater_is_better cfg) (Harness.best st)
                (Harness.best (snd (Harness.evaluate cfg ps st))).
Proof.
  unfold Harness.evaluate.
  destruct (Harness.FeatureSelector cfg ps) as [index|].
  - rewrite evaluate_folds_map. apply update_best_non_worsening.
  - apply non_worsening_refl.
Qed.

Lemma run_non_worsening cfg pss st :
  non_worsening (Harness.greater_is_better cfg) (Harness.best st)
                (Harness.best (Harness.run cfg pss st)).
Proof.
  revert st. induction pss as [|ps pss IH]; intros st; cbn.
  - apply non_worsening_refl.
  - eapply non_worsening_trans; [apply evaluate_non_worsening|apply IH].
Qed.

Lemma run_generations_non_worsening cfg gens st :
  non_worsening (Harness.greater_is_better cfg) (Harness.best st)
                (Harness.best (Harness.run_generations cfg gens st)).
Proof.
  revert st. induction gens as [|pop gens IH]; intros st; cbn.
  - apply non_worsening_refl.
  - eapply non_worsening_trans; [apply run_non_worsening|apply IH].
Qed.

Lemma run_generations_app cfg gens1 gens2 st :
  Harness.run_generations cfg (gens1 ++ gens2) st
  = Harness.run_generations cfg gens2 (Harness.run_generations cfg gens1 st).
Proof. unfold Harness.run_generations. apply fold_left_app. Qed.

Context {R : Genetic.RandomSource}.

Lemma evaluate_population_non_worsening hc pop st :
  non_worsening (Harness.greater_is_better hc) (Harness.best st)
                (Harness.best (snd (Genetic.evaluate_population hc pop st))).
Proof.
  revert st. induction pop as [|ind pop IH]; intros st; cbn.
  - apply non_worsening_refl.
  - pose proof (evaluate_non_worsening hc (list_to_map ind) st) as H1.
    destruct (Harness.evaluate hc (list_to_map ind) st) as [s st1].
    pose proof (IH st1) as H2.
    destruct (Genetic.evaluate_population hc pop st1) as [scored st2].
    cbn [snd] in *. eapply non_worsening_trans; eassumption.
Qed.

Lemma generations_non_worsening fuel cfg sp hc generation pop evaluated st g :
  non_worsening (Harness.greater_is_better hc) (Harness.best st)
    (Harness.best
       (fst (Genetic.generations fuel cfg sp hc generation pop evaluated st g))).
Proof.
  revert generation pop evaluated st g.
  induction fuel as [|fuel IH]; intros generation pop evaluated st g; cbn.
  - apply non_worsening_refl.
  - pose proof (evaluate_population_non_worsening hc pop st) as H1.
    destruct (Genetic.evaluate_population hc pop st) as [scored st1].
    cbn [snd] in H1.
    destruct (Genetic.max_iter cfg <=? evaluated + length pop)%nat; [exact H1|].
    destruct (Genetic.next_population _ _ _ _ _ _) as [pop' g1].
    eapply non_worsening_trans; [exact H1|apply IH].
Qed.

End BestFacts.

(** ** The genetic operators *)
Section GeneticFacts.
Context {R : Genetic.RandomSource}.

Lemma uniform_range g :
  (0 <= fst (Genetic.uniform g))%Q /\ (fst (Genetic.uniform g) < 1)%Q.
Proof.
  unfold Genetic.uniform. destruct (Genetic.next_raw g) as [k g']. cbn [fst].
  assert (Hk : (k mod 2 ^ 53 < 2 ^ 53)%N) by (apply N.mod_lt; discriminate).
  unfold Qle, Qlt. cbn [Qnum Qden].
  change (Z.pos (2 ^ 53)) with (Z.of_N (2 ^ 53)).
  generalize dependent (k mod 2 ^ 53)%N. generalize (2 ^ 53)%N.
  intros m n Hn. split; lia.
Qed.

Lemma never_below_zero p g :
  (p == 0)%Q -> Harness.Qltb (fst (Genetic.uniform g)) p = false.
Proof.
  intros Hp. apply Qltb_ge. rewrite Hp. apply uniform_range.
Qed.

Lemma always_below_one p g :
  (p == 1)%Q -> Harness.Qltb (fst (Genetic.uniform g)) p = true.
Proof.
  intros Hp. apply Qltb_lt. rewrite Hp. apply uniform_range.
Qed.

Lemma crossover_never p a b g :
  (p == 0)%Q -> fst (Genetic.crossover p a b g) = a.
Proof.
  intros Hp. revert b g.
  induction a as [|[k x] a IH]; intros b g; [reflexivity|].
  destruct b as [|[k' y] b]; [reflexivity|]. cbn.
  pose proof (never_below_zero p g Hp) as Hu.
  destruct (Genetic.uniform g) as [u g1]. cbn [fst] in Hu.
  specialize (IH b g1).
  destruct (Genetic.crossover p a b g1) as [child g2]. cbn [fst] in *.
  now rewrite Hu, IH.
Qed.

Lemma crossover_always p a b g :
  (p == 1)%Q -> a.*1 = b.*1 -> fst (Genetic.crossover p a b g) = b.
Proof.
  intros Hp. revert b g.
  induction a as [|[k x] a IH]; intros b g Hkeys.
  - destruct b; [reflexivity|discriminate].
  - destruct b as [|[k' y] b]; [discriminate|].
    cbn in Hkeys. injection Hkeys as -> Hkeys. cbn.
    pose proof (always_below_one p g Hp) as Hu.
    destruct (Genetic.uniform g) as [u g1]. cbn [fst] in Hu.
    specialize (IH b g1 Hkeys).
    destruct (Genetic.crossover p a b g1) as [child g2]. cbn [fst] in *.
    now rewrite Hu, IH.
Qed.

(** Whatever the probability, crossover never blends: every parameter of
    the child is that parameter of one of the parents. *)
Lemma crossover_no_blend p a b g i kv :
  a.*1 = b.*1 ->
  fst (Genetic.crossover p a b g) !! i = Some kv ->
  a !! i = Some kv \/ b !! i = Some kv.
Proof.
  revert b g i.
  induction a as [|[k x] a IH]; intros b g i Hkeys.
  - destruct b; [|discriminate]. cbn. auto.
  - destruct b as [|[k' y] b]; [discriminate|].
    cbn in Hkeys. injection Hkeys as -> Hkeys. cbn.
    destruct (Genetic.uniform g) as [u g1].
    specialize (IH b g1).
    destruct (Genetic.crossover p a b g1) as [child g2]. cbn [fst] in *.
    destruct i as [|i]; cbn.
    + destruct (Harness.Qltb u p); intros [= <-]; auto.
    + apply IH, Hkeys.
Qed.

Lemma mutate_never p sp child g :
  (p == 0)%Q -> fst (Genetic.mutate p sp child g) = child.
Proof.
  intros Hp. revert child g.
  induction sp as [|[k0 d] sp IH]; intros child g; [reflexivity|].
  destruct child as [|[k x] child]; [reflexivity|]. cbn.
  pose proof (never_below_zero p g Hp) as Hu.
  destruct (Genetic.uniform g) as [u g1]. cbn [fst] in Hu. rewrite Hu.
  specialize (IH child g1).
  destruct (Genetic.mutate p sp child g1) as [rest g3]. cbn [fst] in *.
  now rewrite IH.
Qed.

(** At probability one nothing of the child survives but the parameter
    names: two children over the same names mutate to the same result. *)
Lemma mutate_always p sp c c' g :
  (p == 1)%Q -> c.*1 = sp.*1 -> c'.*1 = sp.*1 ->
  Genetic.mutate p sp c g = Genetic.mutate p sp c' g.
Proof.
  intros Hp. revert c c' g.
  induction sp as [|[k0 d] sp IH]; intros c c' g Hc Hc'.
  - destruct c, c'; try discriminate. reflexivity.
  - destruct c as [|[k x] c]; [discriminate|].
    destruct c' as [|[k' x'] c']; [discriminate|].
    cbn in Hc, Hc'. injection Hc as -> Hc. injection Hc' as -> Hc'. cbn.
    pose proof (always_below_one p g Hp) as Hu.
    destruct (Genetic.uniform g) as [u g1]. cbn [fst] in Hu. rewrite Hu.
    destruct (Genetic.sample d g1) as [v g2].
    now rewrite (IH c c' g2 Hc Hc').
Qed.

(** With all three probabilities at 0 in a generation, breeding clones the
    designated parent. *)
Lemma breed_clone cfg sp generation a b g :
  (Genetic.proba (Genetic.param_crossover_proba cfg) generation == 0)%Q ->
  (Genetic.proba (Genetic.param_mutation_proba cfg) generation == 0)%Q ->
  (Genetic.proba (Genetic.random_sampling_proba cfg) generation == 0)%Q ->
  fst (Genetic.breed cfg sp generation a b g) = a.
Proof.
  intros Hc Hm Hr. unfold Genetic.breed.
  pose proof (crossover_never _ a b g Hc) as H1.
  destruct (Genetic.crossover _ a b g) as [c1 g1]. cbn [fst] in H1. subst c1.
  pose proof (mutate_never _ sp a g1 Hm) as H2.
  destruct (Genetic.mutate _ sp a g1) as [c2 g2]. cbn [fst] in H2. subst c2.
  pose proof (never_below_zero _ g2 Hr) as H3.
  destruct (Genetic.uniform g2) as [u g3]. cbn [fst] in H3.
  now rewrite H3.
Qed.

End GeneticFacts.

(** ** Properties of the harness and of the genetic loop *)
Section CollaboratorProperties.
Context {L : Harness.Learner} {R : Genetic.RandomSource}.

(** C1: when the feature flags of a parameter set select fewer columns than
    [min_n_features], the objective function returns the FailureSentinel
    (the [failedscore] it was built with) at once: the trial is recorded as
    failed with that score, FoldEvaluator is not called at all, and
    BestResult is left alone. *)
Theorem infeasible_selection_returns_sentinel cfg labels ps st :
  Harness.feature_groups cfg = Some labels ->
  (length (Harness.selected_columns cfg labels ps) < Harness.min_n_features cfg)%nat ->
  fst (Harness.evaluate cfg ps st) = Harness.failedscore cfg /\
  Harness.fold_evaluations (snd (Harness.evaluate cfg ps st))
    = Harness.fold_evaluations st /\
  (exists tr,
      Harness.history (snd (Harness.evaluate cfg ps st)) = Harness.history st ++ [tr] /\
      Harness.params tr = ps /\
      Harness.failed tr = true /\
      Harness.aggregated tr = Harness.failedscore cfg /\
      Harness.fold_scores tr = []) /\
  Harness.best (snd (Harness.evaluate cfg ps st)) = Harness.best st.
Proof.
  intros Hfg Hlt. unfold Harness.evaluate.
  rewrite (FeatureSelector_infeasible cfg labels ps Hfg Hlt). cbn.
  repeat split. eexists. repeat split.
Qed.

(** C5: for a parameter set whose selection is feasible, FoldEvaluator runs
    on every fold and the aggregated score of the trial, as the history
    records it, is the configured aggregator applied to the scores of the
    folds that succeeded, failed folds being ignored; when no fold succeeded
    it is the FailureSentinel.  What the objective function returns is that
    score in the sign convention of the driver: the score itself when the
    driver maximises and greater is better (or minimises and lesser is
    better), the negated score otherwise.  With the default aggregator the
    score is the arithmetic mean of the successful fold scores. *)
Theorem aggregated_score_of_successful_folds cfg ps st index :
  Harness.FeatureSelector cfg ps = Harness.Selected index ->
  let outcomes :=
    Harness.FoldEvaluator (Harness.hyperparameters cfg ps) index <$> Harness.folds cfg in
  let expected :=
    match Harness.successes outcomes with
    | [] => Harness.failedscore cfg
    | qs => Fin (Harness.score_summarizer cfg qs)
    end in
  (exists tr,
      Harness.history (snd (Harness.evaluate cfg ps st)) = Harness.history st ++ [tr] /\
      Harness.aggregated tr = expected /\
      Harness.fold_scores tr = Harness.fold_score cfg <$> outcomes /\
      Harness.failed tr = existsb Harness.is_failure outcomes) /\
  fst (Harness.evaluate cfg ps st) = Harness.sign_adjust cfg expected /\
  (Harness.driver_minimizes cfg <> Harness.greater_is_better cfg ->
   fst (Harness.evaluate cfg ps st) = expected) /\
  (Harness.driver_minimizes cfg = Harness.greater_is_better cfg ->
   fst (Harness.evaluate cfg ps st) = Harness.negate expected) /\
  Harness.fold_evaluations (snd (Harness.evaluate cfg ps st))
    = (Harness.fold_evaluations st + length (Harness.folds cfg))%nat /\
  (Harness.score_summarizer cfg = Harness.mean ->
   Harness.successes outcomes <> [] ->
   expected
   = Fin (Harness.sum (Harness.successes outcomes)
          / inject_Z (Z.of_nat (length (Harness.successes outcomes))))).
Proof.
  intros Hsel outcomes expected.
  rewrite (evaluate_selected cfg ps st index Hsel). cbn [fst snd].
  fold outcomes.
  assert (Hexp : Harness.summarize cfg outcomes = expected).
  { unfold Harness.summarize, expected.
    destruct (Harness.successes outcomes); reflexivity. }
  rewrite Hexp.
  split; [eexists; cbn; repeat split|].
  split; [reflexivity|].
  split.
  { intros Hne. unfold Harness.sign_adjust.
    destruct (Harness.driver_minimizes cfg), (Harness.greater_is_better cfg);
      cbn; congruence. }
  split.
  { intros Heq. unfold Harness.sign_adjust. rewrite Heq.
    destruct (Harness.greater_is_better cfg); reflexivity. }
  split; [reflexivity|].
  intros Hmean Hne. unfold expected. rewrite Hmean.
  destruct (Harness.successes outcomes); [contradiction|reflexivity].
Qed.

(** C6: BestResult moves only in the configured direction.  One trial
    either leaves it as it was or replaces it by that trial, whose score is
    then strictly better than the one replaced (or the first defined score).
    Hence over any run of trials BestResult is non-worsening: after every
    generation it is the earlier one or a strictly better one, also at the
    end of [gamin]. *)
Theorem best_result_monotone cfg :
  (forall ps st,
      Harness.best (snd (Harness.evaluate cfg ps st)) = Harness.best st \/
      exists tr,
        last (Harness.history (snd (Harness.evaluate cfg ps st))) = Some tr /\
        Harness.params tr = ps /\
        Harness.best (snd (Harness.evaluate cfg ps st))
          = Some (ps, Harness.aggregated tr) /\
        match Harness.best st with
        | None => is_finite (Harness.aggregated tr) = true
        | Some b =>
            Harness.better (Harness.greater_is_better cfg)
                           (Harness.aggregated tr) (snd b) = true
        end) /\
  (forall pss1 pss2 st,
      non_worsening (Harness.greater_is_better cfg)
        (Harness.best (Harness.run cfg pss1 st))
        (Harness.best (Harness.run cfg (pss1 ++ pss2) st))) /\
  (forall gens1 gens2 st,
      non_worsening (Harness.greater_is_better cfg)
        (Harness.best (Harness.run_generations cfg gens1 st))
        (Harness.best (Harness.run_generations cfg (gens1 ++ gens2) st))) /\
  (forall settings sp st g,
      non_worsening (Harness.greater_is_better cfg)
        (Harness.best st)
        (Harness.best (fst (Genetic.gamin settings sp cfg st g)))) /\
  (forall s, Harness.better (Harness.greater_is_better cfg) s s = false).
Proof.
  split; [apply evaluate_best|].
  split.
  { intros pss1 pss2 st. unfold Harness.run. rewrite fold_left_app.
    apply run_non_worsening. }
  split.
  { intros gens1 gens2 st. rewrite run_generations_app.
    apply run_generations_non_worsening. }
  split.
  { intros settings sp st g. unfold Genetic.gamin.
    destruct (Genetic.random_population _ _ _) as [pop g0].
    apply generations_non_worsening. }
  intros s. apply better_irrefl.
Qed.

(** C8: a crossover or mutation probability of exactly 0 or 1 acts
    deterministically.  With crossover probability 0 the child is the
    designated parent, whatever the other parent and the random draws; with
    probability 1 every parameter of the child is the other parent's value.
    At any probability each parameter of the child is one parent's value,
    never a blend.  With mutation probability 0 mutation changes nothing;
    with probability 1 every parameter is resampled, so that nothing of the
    child's values survives.  The probabilities may be constants or
    functions of the generation: when all three are 0 in a generation,
    breeding returns the designated parent. *)
Theorem crossover_mutation_at_bounds :
  (forall p a b g, (p == 0)%Q -> fst (Genetic.crossover p a b g) = a) /\
  (forall p a b g,
      (p == 1)%Q -> a.*1 = b.*1 -> fst (Genetic.crossover p a b g) = b) /\
  (forall p a b g i kv,
      a.*1 = b.*1 ->
      fst (Genetic.crossover p a b g) !! i = Some kv ->
      a !! i = Some kv \/ b !! i = Some kv) /\
  (forall p sp child g, (p == 0)%Q -> fst (Genetic.mutate p sp child g) = child) /\
  (forall p sp c c' g,
      (p == 1)%Q -> c.*1 = sp.*1 -> c'.*1 = sp.*1 ->
      Genetic.mutate p sp c g = Genetic.mutate p sp c' g) /\
  (forall cfg sp generation a b g,
      (Genetic.proba (Genetic.param_crossover_proba cfg) generation == 0)%Q ->
      (Genetic.proba (Genetic.param_mutation_proba cfg) generation == 0)%Q ->
      (Genetic.proba (Genetic.random_sampling_proba cfg) generation == 0)%Q ->
      fst (Genetic.breed cfg sp generation a b g) = a).
Proof.
  split; [exact crossover_never|].
  split; [exact crossover_always|].
  split; [exact crossover_no_blend|].
  split; [exact mutate_never|].
  split; [exact mutate_always|exact breed_clone].
Qed.

End CollaboratorProperties.

(** ** Instances on the concrete world *)




Lemma SimpleoptCV_backend_selection_witness :
  SimpleoptCV.__init__ (E := Demo.env) Demo.args "gridsearch" ∅ []
  = (Raise (Exception "`backend` gridsearch is not supported."), []).
Proof.
  apply (proj1 (SimpleoptCV_backend_selection (E := Demo.env) Demo.args ∅ [])).
  unfold backends.
  repeat (apply not_elem_of_cons; split; [discriminate|]).
  apply not_elem_of_nil.
Defined.

Lemma SimpleoptCV_getattr_delegates_witness :
  SimpleoptCV.getattr (E := Demo.env) Demo.wrapper "cv_results_" []
  = (Ok (Value (PyStr "cv_results_")), []).
Proof.
  rewrite (proj1 (SimpleoptCV_getattr_delegates (E := Demo.env) Demo.wrapper)
             "cv_results_").
  - reflexivity.
  - unfold SimpleoptCV.defined. apply (bool_decide_eq_false_1 _).
    vm_compute. reflexivity.
Defined.

Lemma BayesoptCV_failedscore_fixed_witness :
  BayesoptCV.failedscore
    (fst (fit_sequence (E := Demo.env) [Demo.data 22; Demo.data 23] Demo.fitted))
  = PyFloat (Fin (3 # 4)).
Proof.
  apply (proj1 (proj2 (BayesoptCV_failedscore_fixed (E := Demo.env)))
           Demo.fitted (PyFloat (Fin (3 # 4))) [Demo.data 22; Demo.data 23]).
  - reflexivity.
  - discriminate.
Defined.

Lemma infeasible_selection_returns_sentinel_witness :
  fst (Harness.evaluate (L := Demo.learner) Demo.config Demo.only_b Harness.initial)
  = NaN /\
  Harness.fold_evaluations
    (snd (Harness.evaluate (L := Demo.learner) Demo.config Demo.only_b Harness.initial))
  = 0%nat.
Proof.
  destruct (infeasible_selection_returns_sentinel (L := Demo.learner)
              Demo.config ["a"; "a"; "b"] Demo.only_b Harness.initial eq_refl)
    as (Hscore & Hcalls & _).
  - vm_compute. lia.
  - split; [exact Hscore|exact Hcalls].
Defined.

Lemma aggregated_score_of_successful_folds_witness :
  fst (Harness.evaluate (L := Demo.learner) Demo.config Demo.only_a Harness.initial)
  = Fin (14 # 2) /\
  fst (Harness.evaluate (L := Demo.learner) Demo.minimizing Demo.only_a Harness.initial)
  = Fin (-14 # 2).
Proof.
  split.
  - assert (Hsel : Harness.FeatureSelector Demo.config Demo.only_a
                   = Harness.Selected [0; 1]%nat) by (vm_compute; reflexivity).
    destruct (aggregated_score_of_successful_folds (L := Demo.learner)
                Demo.config Demo.only_a Harness.initial _ Hsel)
      as (_ & _ & Hscore & _).
    rewrite Hscore; [vm_compute; reflexivity|discriminate].
  - assert (Hsel : Harness.FeatureSelector Demo.minimizing Demo.only_a
                   = Harness.Selected [0; 1]%nat) by (vm_compute; reflexivity).
    destruct (aggregated_score_of_successful_folds (L := Demo.learner)
                Demo.minimizing Demo.only_a Harness.initial _ Hsel)
      as (_ & _ & _ & Hscore & _).
    rewrite Hscore; [vm_compute; reflexivity|reflexivity].
Defined.

(** C5, against "the score returned equals the aggregator": under a driver
    that minimises a greater-is-better score, the successful folds score 6
    and 8 and their mean is 7, which is what the history records, but the
    objective function returns -7.  When the only fold fails, the trial
    score is the FailureSentinel 3/4 and -3/4 is returned. *)
Lemma returned_score_is_negated :
  Harness.FeatureSelector Demo.minimizing Demo.only_a = Harness.Selected [0; 1]%nat /\
  Harness.successes
    (Harness.FoldEvaluator (Learner := Demo.learner)
       (Harness.hyperparameters Demo.minimizing Demo.only_a) [0; 1]%nat
     <$> Harness.folds Demo.minimizing)
  = [6 # 1; 8 # 1]%Q /\
  Harness.score_summarizer Demo.minimizing [6 # 1; 8 # 1]%Q = (14 # 2)%Q /\
  fst (Harness.evaluate (L := Demo.learner) Demo.minimizing Demo.only_a Harness.initial)
  = Fin (-14 # 2) /\
  Harness.aggregated
    <$> Harness.history
          (snd (Harness.evaluate (L := Demo.learner) Demo.minimizing Demo.only_a
                  Harness.initial))
  = [Fin (14 # 2)] /\
  ~ (-14 # 2 == 14 # 2)%Q /\
  Harness.FeatureSelector Demo.all_folds_fail Demo.only_a
  = Harness.Selected [0; 1]%nat /\
  Harness.successes
    (Harness.FoldEvaluator (Learner := Demo.learner)
       (Harness.hyperparameters Demo.all_folds_fail Demo.only_a) [0; 1]%nat
     <$> Harness.folds Demo.all_folds_fail)
  = [] /\
  Harness.failedscore Demo.all_folds_fail = Fin (3 # 4) /\
  fst (Harness.evaluate (L := Demo.learner) Demo.all_folds_fail Demo.only_a
         Harness.initial)
  = Fin (-3 # 4).
Proof.
  split; [vm_compute; reflexivity|].
  split; [vm_compute; reflexivity|].
  split; [vm_compute; reflexivity|].
  split; [vm_compute; reflexivity|].
  split; [vm_compute; reflexivity|].
  split; [intros H; vm_compute in H; discriminate|].
  split; [vm_compute; reflexivity|].
  split; [vm_compute; reflexivity|].
  split; [reflexivity|].
  vm_compute; reflexivity.
Qed.

Lemma crossover_mutation_at_bounds_witness :
  fst (Genetic.crossover (R := Demo.source) 1 Demo.mother Demo.father 1%N)
  = Demo.father.
Proof.
  apply (proj1 (proj2 (crossover_mutation_at_bounds (R := Demo.source)))).
  - reflexivity.
  - reflexivity.
Defined.

(** The example of the specification: three folds, four candidates, one of
    which selects no column.  The history has four rows; exactly one is
    marked failed, with the FailureSentinel as score; the others carry three
    fold scores each. *)
Example four_candidates_three_folds :
  let folds :=
    [ {| Harness.train := [2; 3]%nat; Harness.validation := [0; 1]%nat |};
      {| Harness.train := [0; 1]%nat; Harness.validation := [2; 3]%nat |};
      {| Harness.train := [0; 3]%nat; Harness.validation := [1; 2]%nat |} ] in
  let cfg :=
    {| Harness.feature_groups := Some ["a"; "a"; "b"];
       Harness.flag_key := fun g => "use_" +:+ g;
       Harness.n_features := 3; Harness.min_n_features := 1;
       Harness.folds := folds; Harness.failedscore := NaN;
       Harness.score_summarizer := Harness.mean;
       Harness.greater_is_better := true; Harness.driver_minimizes := false |} in
  let none : Harness.ParameterSet :=
    {[ "use_a" := PyBool false; "use_b" := PyBool false; "C" := PyInt 1 ]} in
  let h := Harness.history
             (Harness.run (L := Demo.learner) cfg
                [Demo.only_a; none; Demo.only_b; Demo.both] Harness.initial) in
  length h = 4%nat /\
  Harness.failed <$> h = [false; true; false; false] /\
  Harness.aggregated <$> h = [Fin (12 # 3); NaN; Fin (9 # 3); Fin (15 # 3)] /\
  length <$> (Harness.fold_scores <$> h) = [3; 0; 3; 3]%nat.
Proof. vm_compute. repeat split. Qed.

(** A second [fit] on the same [BayesoptCV] does not call
    [_random_scoring] again. *)
Example second_fit_reuses_failedscore :
  snd (BayesoptCV.fit (E := Demo.env) (Demo.data 22) Demo.fitted)
  = (fst Demo.fitted,
     snd Demo.fitted
     ++ ["_preproc_fit"; "np.random.seed"; "BayesianOptimization";
         "run_optimization"; "_postproc_fit"]).
Proof. reflexivity. Qed.

(** [SimpleoptCV(..., backend="gaopt", iter_pergeneration=1, ...)] builds
    the [GAoptCV] that [RandomoptCV] stands for; a keyword of another
    backend is a [TypeError]. *)
Example SimpleoptCV_keywords :
  fst (SimpleoptCV.__init__ (E := Demo.env) Demo.args "gaopt" random_search_keywords [])
  = Ok {| SimpleoptCV.optcv := GAopt (as_GAoptCV Demo.randomopt);
          SimpleoptCV.backend := "gaopt" |} /\
  fst (SimpleoptCV.__init__ (E := Demo.env) Demo.args "hyperopt" random_search_keywords [])
  = Raise TypeError.
Proof. vm_compute. split; reflexivity. Qed.

(** * Further properties of [_search.py] *)

(** ** How [fit] ends, by the outcome of the search call *)
Section FitOutcome.
Context {E : Env}.

Lemma other_exception_propagates {C} p a e (s : C * World) :
  e <> KeyboardInterrupt ->
  match e with
  | KeyboardInterrupt => on_world (postproc_and_return p a) s
  | _ => (Raise e, s)
  end = (Raise e, s).
Proof. destruct e; congruence. Qed.

(** X1: an exception other than [KeyboardInterrupt] that the search call of
    a backend raises is not caught: [fit] ends with that exception in the
    state the search left, and the post-processing is not run.  In
    [BayesoptCV] the optimizer is then already stored in [self.opt]. *)
Theorem search_errors_propagate :
  (forall a s p oa h1 w1 obj w2 e w3,
      HyperoptCV.fit_setup a s = (Ok (p, oa), (h1, w1)) ->
      mk_objfunc oa w1 = (Ok obj, w2) ->
      HyperoptCV_search h1 obj p w2 = (Raise e, w3) ->
      e <> KeyboardInterrupt ->
      HyperoptCV.fit a s = (Raise e, (h1, w3))) /\
  (forall a s p oa b1 w1 obj w2 o w3 e w4,
      BayesoptCV.fit_setup a s = (Ok (p, oa), (b1, w1)) ->
      mk_objfunc oa w1 = (Ok obj, w2) ->
      BayesianOptimization obj (BayesoptCV.optimizer_kwargs b1 p) w2 = (Ok o, w3) ->
      BayesoptCV_search (BayesoptCV.set_opt o b1) o w3 = (Raise e, w4) ->
      e <> KeyboardInterrupt ->
      BayesoptCV.fit a s = (Raise e, (BayesoptCV.set_opt o b1, w4))) /\
  (forall a s p oa g1 w1 obj w2 e w3,
      GAoptCV.fit_setup a s = (Ok (p, oa), (g1, w1)) ->
      mk_objfunc oa w1 = (Ok obj, w2) ->
      GAoptCV_search g1 obj p w2 = (Raise e, w3) ->
      e <> KeyboardInterrupt ->
      GAoptCV.fit a s = (Raise e, (g1, w3))) /\
  (forall a s p oa r1 w1 obj w2 e w3,
      RandomoptCV.fit_setup a s = (Ok (p, oa), (r1, w1)) ->
      mk_objfunc oa w1 = (Ok obj, w2) ->
      RandomoptCV_search r1 obj p w2 = (Raise e, w3) ->
      e <> KeyboardInterrupt ->
      RandomoptCV.fit a s = (Raise e, (r1, w3))).
Proof.
  repeat split; intros.
  - erewrite HyperoptCV_fit_outcome by eassumption.
    now apply other_exception_propagates.
  - erewrite BayesoptCV_fit_outcome by eassumption.
    now apply other_exception_propagates.
  - erewrite GAoptCV_fit_outcome by eassumption.
    now apply other_exception_propagates.
  - erewrite RandomoptCV_fit_outcome by eassumption.
    now apply other_exception_propagates.
Qed.

(** X2: a search call that returns normally is followed by exactly what
    follows an interrupted one: the post-processing, run on the state the
    search left.  So the result of [fit] does not tell a completed search
    from an interrupted one that left the same state. *)
Theorem completed_search_ends_like_interrupted :
  (forall a s p oa h1 w1 obj w2 r w3,
      HyperoptCV.fit_setup a s = (Ok (p, oa), (h1, w1)) ->
      mk_objfunc oa w1 = (Ok obj, w2) ->
      HyperoptCV_search h1 obj p w2 = (r, w3) ->
      (exists v, r = Ok v) \/ r = Raise KeyboardInterrupt ->
      HyperoptCV.fit a s = on_world (postproc_and_return p a) (h1, w3)) /\
  (forall a s p oa b1 w1 obj w2 o w3 r w4,
      BayesoptCV.fit_setup a s = (Ok (p, oa), (b1, w1)) ->
      mk_objfunc oa w1 = (Ok obj, w2) ->
      BayesianOptimization obj (BayesoptCV.optimizer_kwargs b1 p) w2 = (Ok o, w3) ->
      BayesoptCV_search (BayesoptCV.set_opt o b1) o w3 = (r, w4) ->
      (exists v, r = Ok v) \/ r = Raise KeyboardInterrupt ->
      BayesoptCV.fit a s
      = on_world (postproc_and_return p a) (BayesoptCV.set_opt o b1, w4)) /\
  (forall a s p oa g1 w1 obj w2 r w3,
      GAoptCV.fit_setup a s = (Ok (p, oa), (g1, w1)) ->
      mk_objfunc oa w1 = (Ok obj, w2) ->
      GAoptCV_search g1 obj p w2 = (r, w3) ->
      (exists v, r = Ok v) \/ r = Raise KeyboardInterrupt ->
      GAoptCV.fit a s = on_world (postproc_and_return p a) (g1, w3)) /\
  (forall a s p oa r1 w1 obj w2 r w3,
      RandomoptCV.fit_setup a s = (Ok (p, oa), (r1, w1)) ->
      mk_objfunc oa w1 = (Ok obj, w2) ->
      RandomoptCV_search r1 obj p w2 = (r, w3) ->
      (exists v, r = Ok v) \/ r = Raise KeyboardInterrupt ->
      RandomoptCV.fit a s = on_world (postproc_and_return p a) (r1, w3)).
Proof.
  repeat split; intros.
  - erewrite HyperoptCV_fit_outcome by eassumption.
    destruct H2 as [[v ->]| ->]; reflexivity.
  - erewrite BayesoptCV_fit_outcome by eassumption.
    destruct H3 as [[v ->]| ->]; reflexivity.
  - erewrite GAoptCV_fit_outcome by eassumption.
    destruct H2 as [[v ->]| ->]; reflexivity.
  - erewrite RandomoptCV_fit_outcome by eassumption.
    destruct H2 as [[v ->]| ->]; reflexivity.
Qed.

Lemma outcome_not_interrupt {C} p a (r : result pyval) (s : C * World) :
  fst (postproc_and_return p a (snd s)) <> Raise KeyboardInterrupt ->
  fst (match r with
       | Raise KeyboardInterrupt | Ok _ => on_world (postproc_and_return p a) s
       | Raise e => (Raise e, s)
       end) <> Raise KeyboardInterrupt.
Proof.
  intros Hpost.
  assert (Hon : fst (on_world (postproc_and_return p a) s) <> Raise KeyboardInterrupt).
  { unfold on_world. destruct (postproc_and_return p a (snd s)); exact Hpost. }
  destruct r as [v|e]; [exact Hon|]. destruct e; cbn; congruence.
Qed.

(** X3: once the objective function is built (and, in [BayesoptCV], the
    optimizer constructed), [fit] does not end with [KeyboardInterrupt]
    whatever the search call does, unless the post-processing itself raises
    it. *)
Theorem fit_not_interrupted_by_search :
  (forall a s p oa h1 w1 obj w2 r w3,
      HyperoptCV.fit_setup a s = (Ok (p, oa), (h1, w1)) ->
      mk_objfunc oa w1 = (Ok obj, w2) ->
      HyperoptCV_search h1 obj p w2 = (r, w3) ->
      fst (postproc_and_return p a w3) <> Raise KeyboardInterrupt ->
      fst (HyperoptCV.fit a s) <> Raise KeyboardInterrupt) /\
  (forall a s p oa b1 w1 obj w2 o w3 r w4,
      BayesoptCV.fit_setup a s = (Ok (p, oa), (b1, w1)) ->
      mk_objfunc oa w1 = (Ok obj, w2) ->
      BayesianOptimization obj (BayesoptCV.optimizer_kwargs b1 p) w2 = (Ok o, w3) ->
      BayesoptCV_search (BayesoptCV.set_opt o b1) o w3 = (r, w4) ->
      fst (postproc_and_return p a w4) <> Raise KeyboardInterrupt ->
      fst (BayesoptCV.fit a s) <> Raise KeyboardInterrupt) /\
  (forall a s p oa g1 w1 obj w2 r w3,
      GAoptCV.fit_setup a s = (Ok (p, oa), (g1, w1)) ->
      mk_objfunc oa w1 = (Ok obj, w2) ->
      GAoptCV_search g1 obj p w2 = (r, w3) ->
      fst (postproc_and_return p a w3) <> Raise KeyboardInterrupt ->
      fst (GAoptCV.fit a s) <> Raise KeyboardInterrupt) /\
  (forall a s p oa r1 w1 obj w2 r w3,
      RandomoptCV.fit_setup a s = (Ok (p, oa), (r1, w1)) ->
      mk_objfunc oa w1 = (Ok obj, w2) ->
      RandomoptCV_search r1 obj p w2 = (r, w3) ->
      fst (postproc_and_return p a w3) <> Raise KeyboardInterrupt ->
      fst (RandomoptCV.fit a s) <> Raise KeyboardInterrupt).
Proof.
  repeat split; intros.
  - erewrite HyperoptCV_fit_outcome by eassumption.
    now apply outcome_not_interrupt.
  - erewrite BayesoptCV_fit_outcome by eassumption.
    now apply outcome_not_interrupt.
  - erewrite GAoptCV_fit_outcome by eassumption.
    now apply outcome_not_interrupt.
  - erewrite RandomoptCV_fit_outcome by eassumption.
    now apply outcome_not_interrupt.
Qed.

End FitOutcome.

(** ** What [fit] leaves on the instance *)
Section FitEffects.
Context {E : Env}.

Lemma HyperoptCV_fit_keeps_self a s : fst (snd (HyperoptCV.fit a s)) = fst s.
Proof.
  unfold HyperoptCV.fit, HyperoptCV.fit_setup,
    try_except_KeyboardInterrupt_pass, self, gets, on_world,
    mbind, M_bind, mret, M_ret. cbn; cbn [fst snd].
  run_all.
Qed.

Lemma RandomoptCV_fit_keeps_self a s : fst (snd (RandomoptCV.fit a s)) = fst s.
Proof.
  unfold RandomoptCV.fit, RandomoptCV.fit_setup,
    try_except_KeyboardInterrupt_pass, self, gets, on_world,
    mbind, M_bind, mret, M_ret. cbn; cbn [fst snd].
  run_all.
Qed.

Lemma BayesoptCV_fit_keeps_configuration a s :
  forget_run (fst (snd (BayesoptCV.fit a s))) = forget_run (fst s).
Proof.
  unfold BayesoptCV.fit, BayesoptCV.fit_setup, BaseSearcher_random_scoring,
    try_except_KeyboardInterrupt_pass, set_self, modify, self, gets, on_world,
    raise, mbind, M_bind, mret, M_ret.
  cbn; cbn [fst snd].
  destruct (BaseSearcher_preproc_fit _ _ _ _ _) as [[p0|e] w1]; cbn [fst snd];
    [|reflexivity].
  destruct (np_random_seed _ _) as [[[]|e] w2]; cbn [fst snd]; [|reflexivity].
  destruct (BayesoptCV.failedscore (fst s)) eqn:Hfs; cbn [fst snd].
  1: destruct (random_score (p_y p0) w2) as [[q|e] w3]; cbn [fst snd];
       [|reflexivity].
  all: repeat (run_step || exn_step); reflexivity.
Qed.

(** X4: a [_preproc_fit] that raises ends [fit] at once with its exception,
    whatever the backend: nothing is seeded, drawn or searched, and the
    instance is as before the call. *)
Theorem preprocessing_failure_aborts_fit a (s : searcher) w e w1 :
  BaseSearcher_preproc_fit (fa_X a) (fa_y a) (fa_validation_data a)
                           (fa_feature_groups a) w = (Raise e, w1) ->
  searcher_fit a (s, w) = (Raise e, (s, w1)).
Proof.
  intros Hpre. unfold searcher_fit, with_self. cbn [fst snd].
  destruct s as [h|b|g|r].
  - unfold HyperoptCV.fit, HyperoptCV.fit_setup, on_world, mbind, M_bind.
    cbn [fst snd]. now rewrite Hpre.
  - unfold BayesoptCV.fit, BayesoptCV.fit_setup, on_world, mbind, M_bind.
    cbn [fst snd]. now rewrite Hpre.
  - unfold GAoptCV.fit, GAoptCV.fit_setup, on_world, mbind, M_bind.
    cbn [fst snd]. now rewrite Hpre.
  - unfold RandomoptCV.fit, RandomoptCV.fit_setup, on_world, mbind, M_bind.
    cbn [fst snd]. now rewrite Hpre.
Qed.

(** X5: however it ends, [fit] leaves the search configuration of the
    instance as the constructor set it.  On a [HyperoptCV], [GAoptCV] or
    [RandomoptCV] it assigns no attribute at all; on a [BayesoptCV] only
    [failedscore] and [opt]. *)
Theorem fit_keeps_configuration a (s : searcher * World) :
  configuration (fst (snd (searcher_fit a s))) = configuration (fst s) /\
  match fst s with
  | Bayesopt _ => True
  | _ => fst (snd (searcher_fit a s)) = fst s
  end.
Proof.
  unfold searcher_fit, with_self. destruct s as [[h|b|g|r] w]; cbn [fst snd].
  - pose proof (HyperoptCV_fit_keeps_self a (h, w)) as Hk.
    destruct (HyperoptCV.fit a (h, w)) as [res [h' w']]. cbn [fst snd] in *.
    subst h'. split; reflexivity.
  - pose proof (BayesoptCV_fit_keeps_configuration a (b, w)) as Hk.
    destruct (BayesoptCV.fit a (b, w)) as [res [b' w']]. cbn [fst snd] in *.
    split; [|exact I]. cbn. now rewrite Hk.
  - pose proof (GAoptCV_fit_keeps_self a (g, w)) as Hk.
    destruct (GAoptCV.fit a (g, w)) as [res [g' w']]. cbn [fst snd] in *.
    subst g'. split; reflexivity.
  - pose proof (RandomoptCV_fit_keeps_self a (r, w)) as Hk.
    destruct (RandomoptCV.fit a (r, w)) as [res [r' w']]. cbn [fst snd] in *.
    subst r'. split; reflexivity.
Qed.

(** X6: in a [fit] that finds [self.failedscore] at [None], the attribute is
    assigned exactly when [_random_scoring(y)] returns.  When the
    preprocessing, the seeding or the draw raises, [fit] ends with that
    exception and the attribute is still [None]; when the draw returns, its
    value stays on the instance whatever fails later in the call. *)
Theorem BayesoptCV_failedscore_drawn b a w :
  BayesoptCV.failedscore b = PyNone ->
  (forall e w1,
      BayesoptCV_draw b a w = (Raise e, w1) ->
      BayesoptCV.fit a (b, w) = (Raise e, (b, w1))) /\
  (forall p x w1,
      BayesoptCV_draw b a w = (Ok (p, x), w1) ->
      BayesoptCV.failedscore (fst (snd (BayesoptCV.fit a (b, w)))) = PyFloat x).
Proof.
  intros Hnone. unfold BayesoptCV_draw.
  unfold BayesoptCV.fit, BayesoptCV.fit_setup, BaseSearcher_random_scoring,
    try_except_KeyboardInterrupt_pass, set_self, modify, self, gets, on_world,
    raise, mbind, M_bind, mret, M_ret.
  cbn; cbn [fst snd].
  destruct (BaseSearcher_preproc_fit _ _ _ _ _) as [[p0|e0] w1]; cbn [fst snd].
  2: { split; [intros e w' Heq; inversion Heq; subst; reflexivity|].
       intros; discriminate. }
  destruct (np_random_seed _ _) as [[[]|e0] w2]; cbn [fst snd].
  2: { split; [intros e w' Heq; inversion Heq; subst; reflexivity|].
       intros; discriminate. }
  rewrite Hnone.
  destruct (random_score (p_y p0) w2) as [[q0|e0] w3] eqn:Hq;
    cbn [fst snd]; rewrite ?Hq; cbn [fst snd].
  2: { split; [intros e w' Heq; inversion Heq; subst; reflexivity|].
       intros; discriminate. }
  split; [intros; discriminate|].
  intros p q w4 Heq. inversion Heq; subst.
  repeat (run_step || exn_step); reflexivity.
Qed.

Lemma BayesoptCV_fit_setup_opt a s :
  BayesoptCV.opt (fst (snd (BayesoptCV.fit_setup a s))) = BayesoptCV.opt (fst s).
Proof.
  unfold BayesoptCV.fit_setup, BaseSearcher_random_scoring,
    set_self, modify, self, gets, on_world, mbind, M_bind, mret, M_ret.
  cbn; cbn [fst snd].
  destruct (BaseSearcher_preproc_fit _ _ _ _ _) as [[p0|e] w1]; cbn [fst snd];
    [|reflexivity].
  destruct (np_random_seed _ _) as [[[]|e] w2]; cbn [fst snd]; [|reflexivity].
  destruct (BayesoptCV.failedscore (fst s)) eqn:Hfs; cbn [fst snd].
  1: destruct (random_score (p_y p0) w2) as [[q|e] w3]; cbn [fst snd];
       [|reflexivity].
  all: destruct (objfunc_kwargs _ _ _ _) as [[oa|e] w4]; reflexivity.
Qed.

(** X7: [self.opt] of a [BayesoptCV] is assigned when the
    [BayesianOptimization] constructor returns, before the search runs: it
    then holds that optimizer at the end of [fit], also when the search or
    the post-processing raises.  A [fit] in which the constructor is not
    reached or raises leaves [self.opt] as it was. *)
Theorem BayesoptCV_opt_assigned a s :
  (forall p oa b1 w1 obj w2 o w3,
      BayesoptCV.fit_setup a s = (Ok (p, oa), (b1, w1)) ->
      mk_objfunc oa w1 = (Ok obj, w2) ->
      BayesianOptimization obj (BayesoptCV.optimizer_kwargs b1 p) w2 = (Ok o, w3) ->
      BayesoptCV.opt (fst (snd (BayesoptCV.fit a s))) = Some o) /\
  (BayesoptCV.opt (fst (snd (BayesoptCV.fit a s))) = BayesoptCV.opt (fst s) \/
   exists p oa b1 w1 obj w2 o w3,
     BayesoptCV.fit_setup a s = (Ok (p, oa), (b1, w1)) /\
     mk_objfunc oa w1 = (Ok obj, w2) /\
     BayesianOptimization obj (BayesoptCV.optimizer_kwargs b1 p) w2 = (Ok o, w3) /\
     BayesoptCV.opt (fst (snd (BayesoptCV.fit a s))) = Some o).
Proof.
  assert (Hset : forall p oa b1 w1 obj w2 o w3,
             BayesoptCV.fit_setup a s = (Ok (p, oa), (b1, w1)) ->
             mk_objfunc oa w1 = (Ok obj, w2) ->
             BayesianOptimization obj (BayesoptCV.optimizer_kwargs b1 p) w2
             = (Ok o, w3) ->
             BayesoptCV.opt (fst (snd (BayesoptCV.fit a s))) = Some o).
  { intros p oa b1 w1 obj w2 o w3 Hsetup Hobj Hnew.
    destruct (BayesoptCV_search (BayesoptCV.set_opt o b1) o w3) as [r w4] eqn:Hsearch.
    rewrite (BayesoptCV_fit_outcome _ _ _ _ _ _ _ _ _ _ _ _ Hsetup Hobj Hnew Hsearch).
    destruct r as [v|e]; [|destruct e]; try reflexivity;
      rewrite on_world_self; reflexivity. }
  split; [exact Hset|].
  pose proof (BayesoptCV_fit_setup_opt a s) as Hopt.
  destruct (BayesoptCV.fit_setup a s) as [[[p oa]|e] [b1 w1]] eqn:Hsetup;
    cbn [fst snd] in Hopt.
  2: { left. unfold BayesoptCV.fit. rewrite (bind_raise _ _ _ _ _ Hsetup). exact Hopt. }
  destruct (mk_objfunc oa w1) as [[obj|e] w2] eqn:Hobj.
  2: { left. unfold BayesoptCV.fit. rewrite (bind_ok _ _ _ _ _ Hsetup).
       rewrite (bind_raise _ _ _ _ _ (on_world_eq _ _ _ _ _ Hobj)). exact Hopt. }
  destruct (BayesianOptimization obj (BayesoptCV.optimizer_kwargs b1 p) w2)
    as [[o|e] w3] eqn:Hnew.
  2: { left. unfold BayesoptCV.fit. rewrite (bind_ok _ _ _ _ _ Hsetup).
       rewrite (bind_ok _ _ _ _ _ (on_world_eq _ _ _ _ _ Hobj)).
       unfold self at 1. erewrite bind_ok by reflexivity. cbn [fst].
       rewrite (bind_raise _ _ _ _ _ (on_world_eq _ _ _ _ _ Hnew)). exact Hopt. }
  right. exists p, oa, b1, w1, obj, w2, o, w3. repeat split; eauto.
Qed.

End FitEffects.

(** ** Construction through the wrapper *)
Section Construction.
Context {E : Env}.

Lemma HyperoptCV_new_ok c kw w h w' :
  HyperoptCV.new c kw w = (Ok h, w') ->
  dom kw ⊆ ({[ "algo" ]} : gset string) /\
  HyperoptCV.max_iter h = c_max_iter c /\
  HyperoptCV.algo h = kwarg kw "algo" tpe_suggest /\
  (c_random_state c = None -> HyperoptCV.random_state h = PyNone).
Proof.
  unfold HyperoptCV.new, HyperoptCV.__init__, mk_random_state, raise,
    mbind, M_bind, mret, M_ret.
  case_bool_decide as Hkw; [|discriminate].
  destruct (BaseSearcher_init _ w) as [[[]|e] w1]; [|discriminate].
  destruct (c_random_state c) as [z|].
  - destruct (np_random_RandomState z w1) as [[rs|e] w2]; [|discriminate].
    intros Heq; inversion Heq; subst; cbn. repeat split; auto. discriminate.
  - intros Heq; inversion Heq; subst; cbn. repeat split; auto.
Qed.

Lemma BayesoptCV_new_ok c kw w b w' :
  BayesoptCV.new c kw w = (Ok b, w') ->
  dom kw ⊆ BayesoptCV.keywords /\
  BayesoptCV.max_iter b = c_max_iter c /\
  BayesoptCV.random_state b = BayesoptCV.of_random_state (c_random_state c) /\
  forall name, name ∈ BayesoptCV.keywords ->
               BayesoptCV.instance_attr b name
               = Some (kwarg kw name (BayesoptCV_default name)).
Proof.
  unfold BayesoptCV.new, BayesoptCV.__init__, raise, mbind, M_bind, mret, M_ret.
  case_bool_decide as Hkw; [|discriminate].
  destruct (BaseSearcher_init _ w) as [[[]|e] w1]; [|discriminate].
  intros Heq; inversion Heq; subst; cbn. repeat split; auto.
  intros name Hname. unfold BayesoptCV.keywords in Hname.
  repeat (apply elem_of_union in Hname as [Hname|Hname]);
    apply elem_of_singleton in Hname; subst name; reflexivity.
Qed.

Lemma GAoptCV_new_ok c kw w g w' :
  GAoptCV.new c kw w = (Ok g, w') ->
  dom kw ⊆ GAoptCV.keywords /\
  GAoptCV.max_iter g = c_max_iter c /\
  (c_random_state c = None -> GAoptCV.random_state g = PyNone) /\
  forall name, name ∈ GAoptCV.keywords ->
               GAoptCV.instance_attr g name
               = Some (kwarg kw name (GAoptCV_default name)).
Proof.
  unfold GAoptCV.new, GAoptCV.__init__, mk_random_state, raise,
    mbind, M_bind, mret, M_ret.
  case_bool_decide as Hkw; [|discriminate].
  destruct (BaseSearcher_init _ w) as [[[]|e] w1]; [|discriminate].
  assert (Hnames : forall name (g0 : GAoptCV.t),
             GAoptCV.iter_pergeneration g0 = kwarg kw "iter_pergeneration" (PyInt 8) ->
             GAoptCV.param_crossover_proba g0
             = kwarg kw "param_crossover_proba" (PyFloat (Fin (1 # 2))) ->
             GAoptCV.param_mutation_proba g0
             = kwarg kw "param_mutation_proba" (PyFloat (Fin (1 # 100))) ->
             GAoptCV.random_sampling_proba g0
             = kwarg kw "random_sampling_proba" (PyFloat (Fin (1 # 100))) ->
             name ∈ GAoptCV.keywords ->
             GAoptCV.instance_attr g0 name
             = Some (kwarg kw name (GAoptCV_default name))).
  { intros name g0 H1 H2 H3 H4 Hname. unfold GAoptCV.keywords in Hname.
    repeat (apply elem_of_union in Hname as [Hname|Hname]);
      apply elem_of_singleton in Hname; subst name; cbn; congruence. }
  destruct (c_random_state c) as [z|].
  - destruct (np_random_RandomState z w1) as [[rs|e] w2]; [|discriminate].
    intros Heq; inversion Heq; subst; cbn.
    split; [assumption|]. split; [reflexivity|]. split; [discriminate|].
    intros name. now apply Hnames.
  - intros Heq; inversion Heq; subst; cbn.
    split; [assumption|]. split; [reflexivity|]. split; [reflexivity|].
    intros name. now apply Hnames.
Qed.

Lemma RandomoptCV_new_ok c kw w r w' :
  RandomoptCV.new c kw w = (Ok r, w') ->
  dom kw ⊆ (∅ : gset string) /\
  RandomoptCV.max_iter r = c_max_iter c /\
  (c_random_state c = None -> RandomoptCV.random_state r = PyNone).
Proof.
  unfold RandomoptCV.new, RandomoptCV.__init__, mk_random_state, raise,
    mbind, M_bind, mret, M_ret.
  case_bool_decide as Hkw; [|discriminate].
  destruct (BaseSearcher_init _ w) as [[[]|e] w1]; [|discriminate].
  destruct (c_random_state c) as [z|].
  - destruct (np_random_RandomState z w1) as [[rs|e] w2]; [|discriminate].
    intros Heq; inversion Heq; subst; cbn. repeat split; auto. discriminate.
  - intros Heq; inversion Heq; subst; cbn. repeat split; auto.
Qed.

(** A successful [SimpleoptCV(...)] call, read backwards. *)
Lemma SimpleoptCV_init_ok c b kw w me w' :
  SimpleoptCV.__init__ c b kw w = (Ok me, w') ->
  SimpleoptCV.backend me = b /\
  ((b = "hyperopt" /\ exists o, HyperoptCV.new c kw w = (Ok o, w') /\
                                SimpleoptCV.optcv me = Hyperopt o) \/
   (b = "bayesopt" /\ exists o, BayesoptCV.new c kw w = (Ok o, w') /\
                                SimpleoptCV.optcv me = Bayesopt o) \/
   (b = "gaopt" /\ exists o, GAoptCV.new c kw w = (Ok o, w') /\
                             SimpleoptCV.optcv me = GAopt o) \/
   (b = "randomopt" /\ exists o, RandomoptCV.new c kw w = (Ok o, w') /\
                                 SimpleoptCV.optcv me = Randomopt o)).
Proof.
  unfold SimpleoptCV.__init__, raise, mbind, M_bind, mret, M_ret.
  destruct (String.eqb_spec b "hyperopt") as [->|_].
  { destruct (HyperoptCV.new c kw w) as [[o|e] w1]; [|discriminate].
    intros Heq; inversion Heq; subst; cbn. split; [reflexivity|]. left. eauto. }
  destruct (String.eqb_spec b "bayesopt") as [->|_].
  { destruct (BayesoptCV.new c kw w) as [[o|e] w1]; [|discriminate].
    intros Heq; inversion Heq; subst; cbn. split; [reflexivity|].
    right; left. eauto. }
  destruct (String.eqb_spec b "gaopt") as [->|_].
  { destruct (GAoptCV.new c kw w) as [[o|e] w1]; [|discriminate].
    intros Heq; inversion Heq; subst; cbn. split; [reflexivity|].
    right; right; left. eauto. }
  destruct (String.eqb_spec b "randomopt") as [->|_]; [|discriminate].
  destruct (RandomoptCV.new c kw w) as [[o|e] w1]; [|discriminate].
  intros Heq; inversion Heq; subst; cbn. split; [reflexivity|].
  right; right; right. eauto.
Qed.

Lemma getattr_not_defined (me : SimpleoptCV.t) name :
  ~ SimpleoptCV.defined name ->
  SimpleoptCV.getattr me name = searcher_getattr (SimpleoptCV.optcv me) name.
Proof.
  intros Hname. unfold SimpleoptCV.defined in Hname.
  apply not_elem_of_union in Hname as [Hname Hobject].
  apply not_elem_of_union in Hname as [Hinstance Hmethod].
  apply not_elem_of_union in Hinstance as [Hoptcv Hbackend].
  apply not_elem_of_singleton in Hoptcv, Hbackend.
  unfold SimpleoptCV.getattr, SimpleoptCV.instance_attr, SimpleoptCV.__getattr__.
  rewrite (proj2 (String.eqb_neq name "optcv") Hoptcv).
  rewrite (proj2 (String.eqb_neq name "backend") Hbackend).
  rewrite (bool_decide_eq_false_2 _ Hmethod), (bool_decide_eq_false_2 _ Hobject).
  reflexivity.
Qed.

Lemma keyword_not_defined name :
  name ∈ ({[ "max_iter"; "random_state"; "algo" ]}
          ∪ BayesoptCV.keywords ∪ GAoptCV.keywords : gset string) ->
  ~ SimpleoptCV.defined name.
Proof.
  intros Hname Hdef. unfold SimpleoptCV.defined in Hdef.
  assert (Hdisj : ({[ "max_iter"; "random_state"; "algo" ]}
                   ∪ BayesoptCV.keywords ∪ GAoptCV.keywords : gset string)
                  ## ({[ "optcv"; "backend" ]} ∪ SimpleoptCV.methods
                      ∪ SimpleoptCV.object_attrs)).
  { apply (bool_decide_unpack _). vm_compute. exact I. }
  exact (Hdisj name Hname Hdef).
Qed.

(** X8: when [SimpleoptCV(...)] returns, the backend name was one of the
    four, the wrapped instance is of the class that name stands for, every
    keyword given is in that class's signature, and the wrapper's own
    attributes read back what was given: [backend] the name, [optcv] the
    instance. *)
Theorem SimpleoptCV_construction_inversion c b kw w me w' :
  SimpleoptCV.__init__ c b kw w = (Ok me, w') ->
  b ∈ backends /\
  class_name (SimpleoptCV.optcv me) = backend_class b /\
  dom kw ⊆ signature_keywords b /\
  (forall w0, SimpleoptCV.getattr me "backend" w0 = (Ok (Value (PyStr b)), w0)) /\
  (forall w0, SimpleoptCV.getattr me "optcv" w0
              = (Ok (Instance (SimpleoptCV.optcv me)), w0)).
Proof.
  intros Hinit.
  destruct (SimpleoptCV_init_ok _ _ _ _ _ _ Hinit) as [Hb Hcases].
  assert (Hget : (forall w0, SimpleoptCV.getattr me "backend" w0
                             = (Ok (Value (PyStr b)), w0)) /\
                 (forall w0, SimpleoptCV.getattr me "optcv" w0
                             = (Ok (Instance (SimpleoptCV.optcv me)), w0))).
  { rewrite <- Hb. split; intros w0; reflexivity. }
  destruct Hget as [Hget1 Hget2]. unfold backends.
  destruct Hcases as [[-> (o & Hnew & Ho)]|[[-> (o & Hnew & Ho)]|
                      [[-> (o & Hnew & Ho)]|[-> (o & Hnew & Ho)]]]];
    rewrite Ho in Hget2 |- *; cbn [class_name].
  - apply HyperoptCV_new_ok in Hnew as (Hkw & _).
    repeat split; auto. set_solver.
  - apply BayesoptCV_new_ok in Hnew as (Hkw & _).
    repeat split; auto. set_solver.
  - apply GAoptCV_new_ok in Hnew as (Hkw & _).
    repeat split; auto. set_solver.
  - apply RandomoptCV_new_ok in Hnew as (Hkw & _).
    repeat split; auto. set_solver.
Qed.

(** X9: a keyword that the selected backend's constructor does not have
    makes [SimpleoptCV(...)] raise [TypeError] before [BaseSearcher.__init__]
    or any other collaborator has run. *)
Theorem SimpleoptCV_rejects_foreign_keywords c b kw w :
  b ∈ backends ->
  ~ dom kw ⊆ signature_keywords b ->
  SimpleoptCV.__init__ c b kw w = (Raise TypeError, w).
Proof.
  intros Hb Hkw. unfold backends in Hb.
  unfold SimpleoptCV.__init__, HyperoptCV.new, BayesoptCV.new, GAoptCV.new,
    RandomoptCV.new, raise, mbind, M_bind.
  repeat (apply elem_of_cons in Hb as [->|Hb]);
    [..|now apply elem_of_nil in Hb];
    cbn in Hkw |- *; now rewrite (bool_decide_eq_false_2 _ Hkw).
Qed.

(** X10: what is passed to [SimpleoptCV(...)] is what the wrapper's
    attributes read back, through [__getattr__] and the backend instance:
    [max_iter] for every backend; for "hyperopt" [algo], [tpe.suggest] when
    not given; for "gaopt" and "bayesopt" every keyword of the backend's
    signature, with the signature's default when not given; [random_state]
    as given for "bayesopt", and [None] for every backend when [None] was
    given.  A fresh "bayesopt" wrapper reads [failedscore] as [None]. *)
Theorem constructor_arguments_read_back c b kw w me w' :
  SimpleoptCV.__init__ c b kw w = (Ok me, w') ->
  (forall w0, SimpleoptCV.getattr me "max_iter" w0 = (Ok (Value (c_max_iter c)), w0)) /\
  (c_random_state c = None ->
   forall w0, SimpleoptCV.getattr me "random_state" w0 = (Ok (Value PyNone), w0)) /\
  (b = "hyperopt" ->
   forall w0, SimpleoptCV.getattr me "algo" w0
              = (Ok (Value (kwarg kw "algo" tpe_suggest)), w0)) /\
  (b = "gaopt" ->
   forall name w0,
     name ∈ GAoptCV.keywords ->
     SimpleoptCV.getattr me name w0
     = (Ok (Value (kwarg kw name (GAoptCV_default name))), w0)) /\
  (b = "bayesopt" ->
   (forall name w0,
       name ∈ BayesoptCV.keywords ->
       SimpleoptCV.getattr me name w0
       = (Ok (Value (kwarg kw name (BayesoptCV_default name))), w0)) /\
   (forall w0, SimpleoptCV.getattr me "random_state" w0
               = (Ok (Value (BayesoptCV.of_random_state (c_random_state c))), w0)) /\
   (forall w0, SimpleoptCV.getattr me "failedscore" w0 = (Ok (Value PyNone), w0))).
Proof.
  intros Hinit.
  destruct (SimpleoptCV_init_ok _ _ _ _ _ _ Hinit) as [Hb Hcases].
  assert (Hmax : ~ SimpleoptCV.defined "max_iter")
    by (apply keyword_not_defined; set_solver).
  assert (Hrs : ~ SimpleoptCV.defined "random_state")
    by (apply keyword_not_defined; set_solver).
  assert (Halgo : ~ SimpleoptCV.defined "algo")
    by (apply keyword_not_defined; set_solver).
  assert (Hfs : ~ SimpleoptCV.defined "failedscore").
  { unfold SimpleoptCV.defined. apply (bool_decide_eq_false_1 _).
    vm_compute. reflexivity. }
  rewrite (getattr_not_defined me _ Hmax), (getattr_not_defined me _ Hrs),
    (getattr_not_defined me _ Halgo), (getattr_not_defined me _ Hfs).
  destruct Hcases as [[-> (o & Hnew & Ho)]|[[-> (o & Hnew & Ho)]|
                      [[-> (o & Hnew & Ho)]|[-> (o & Hnew & Ho)]]]];
    rewrite Ho; unfold searcher_getattr; cbn.
  - apply HyperoptCV_new_ok in Hnew as (_ & Hm & Ha & Hr).
    rewrite Hm, Ha. repeat split; try discriminate; auto.
    intros Hnone w0. now rewrite (Hr Hnone).
  - pose proof (BayesoptCV_new_failedscore _ _ _ _ _ Hnew) as Hf.
    apply BayesoptCV_new_ok in Hnew as (_ & Hm & Hr & Hk).
    rewrite Hm, Hr, Hf. repeat split; try discriminate; auto.
    + intros Hnone w0. now rewrite Hnone.
    + intros name w0 Hname.
      rewrite getattr_not_defined
        by (apply keyword_not_defined, elem_of_union_l, elem_of_union_r, Hname).
      rewrite Ho. unfold searcher_getattr. cbn [searcher_instance_attr].
      now rewrite (Hk name Hname).
  - apply GAoptCV_new_ok in Hnew as (_ & Hm & Hr & Hk).
    rewrite Hm. repeat split; try discriminate; auto.
    + intros Hnone w0. now rewrite (Hr Hnone).
    + intros _ name w0 Hname.
      rewrite getattr_not_defined
        by (apply keyword_not_defined, elem_of_union_r, Hname).
      rewrite Ho. unfold searcher_getattr. cbn [searcher_instance_attr].
      now rewrite (Hk name Hname).
  - apply RandomoptCV_new_ok in Hnew as (_ & Hm & Hr).
    rewrite Hm. repeat split; try discriminate; auto.
    intros Hnone w0. now rewrite (Hr Hnone).
Qed.

End Construction.

(** ** The further properties on the concrete world *)

Lemma search_errors_propagate_witness :
  HyperoptCV.fit (E := broken_env "search" (OtherError "ValueError"))
                 (Demo.data 21) (Demo.hyperopt, [])
  = (Raise (OtherError "ValueError"), (Demo.hyperopt, ["_preproc_fit"; "fmin"])).
Proof.
  eapply (proj1 (search_errors_propagate
                   (E := broken_env "search" (OtherError "ValueError")))).
  - reflexivity.
  - reflexivity.
  - reflexivity.
  - discriminate.
Defined.

Lemma completed_search_ends_like_interrupted_witness :
  GAoptCV.fit (E := Demo.env) (Demo.data 21) (as_GAoptCV Demo.randomopt, [])
  = (Ok Self,
     (as_GAoptCV Demo.randomopt,
      ["_preproc_fit"; "np.random.seed"; "gamin"; "_postproc_fit"])).
Proof.
  pose proof (proj1 (proj2 (proj2 (completed_search_ends_like_interrupted
                                     (E := Demo.env))))) as H.
  eapply eq_trans;
    [eapply H; [reflexivity|reflexivity|reflexivity|left; eexists; reflexivity]|].
  reflexivity.
Defined.

Lemma fit_not_interrupted_by_search_witness :
  fst (RandomoptCV.fit (E := Demo.env) (Demo.data 21) (Demo.randomopt, ["SIGINT"]))
  <> Raise KeyboardInterrupt.
Proof.
  eapply (proj2 (proj2 (proj2 (fit_not_interrupted_by_search (E := Demo.env))))).
  - reflexivity.
  - reflexivity.
  - reflexivity.
  - discriminate.
Defined.

Lemma preprocessing_failure_aborts_fit_witness :
  searcher_fit (E := broken_env "preproc" (OtherError "ValueError"))
               (Demo.data 21) (Bayesopt Demo.bayesopt, [])
  = (Raise (OtherError "ValueError"), (Bayesopt Demo.bayesopt, ["_preproc_fit"])).
Proof.
  apply (preprocessing_failure_aborts_fit
           (E := broken_env "preproc" (OtherError "ValueError"))).
  reflexivity.
Defined.

Lemma BayesoptCV_failedscore_drawn_witness :
  BayesoptCV.fit (E := broken_env "draw" (OtherError "ValueError"))
                 (Demo.data 21) (Demo.bayesopt, [])
  = (Raise (OtherError "ValueError"),
     (Demo.bayesopt, ["_preproc_fit"; "np.random.seed"; "_random_scoring"])) /\
  BayesoptCV.failedscore
    (fst (snd (BayesoptCV.fit (E := Demo.env) (Demo.data 21) (Demo.bayesopt, []))))
  = PyFloat (Fin (2 # 4)).
Proof.
  split.
  - apply (proj1 (BayesoptCV_failedscore_drawn
                    (E := broken_env "draw" (OtherError "ValueError"))
                    Demo.bayesopt (Demo.data 21) [] eq_refl)).
    reflexivity.
  - apply (proj2 (BayesoptCV_failedscore_drawn (E := Demo.env)
                    Demo.bayesopt (Demo.data 21) [] eq_refl)
             {| p_X := PyRef 20; p_y := PyRef 21; p_Xvalid := PyNone;
                p_yvalid := PyNone; p_cv := PyRef 5;
                p_param_distributions := PyRef 6 |}
             (Fin (2 # 4))
             ["_preproc_fit"; "np.random.seed"; "_random_scoring"]).
    reflexivity.
Defined.

Lemma BayesoptCV_opt_assigned_witness :
  BayesoptCV.opt
    (fst (snd (BayesoptCV.fit (E := broken_env "search" (OtherError "ValueError"))
                              (Demo.data 21) (Demo.bayesopt, []))))
  = Some (PyRef 3).
Proof.
  eapply (proj1 (BayesoptCV_opt_assigned
                   (E := broken_env "search" (OtherError "ValueError"))
                   (Demo.data 21) (Demo.bayesopt, []))).
  - reflexivity.
  - reflexivity.
  - reflexivity.
Defined.

Lemma SimpleoptCV_construction_inversion_witness :
  class_name (SimpleoptCV.optcv ga_wrapper) = "GAoptCV" /\
  SimpleoptCV.getattr (E := Demo.env) ga_wrapper "backend" []
  = (Ok (Value (PyStr "gaopt")), []).
Proof.
  destruct (SimpleoptCV_construction_inversion (E := Demo.env)
              Demo.args "gaopt" random_search_keywords [] ga_wrapper
              ["BaseSearcher.__init__ gaopt"])
    as (_ & Hclass & _ & Hbackend & _).
  - vm_compute. reflexivity.
  - split; [exact Hclass|apply Hbackend].
Defined.

Lemma SimpleoptCV_rejects_foreign_keywords_witness :
  SimpleoptCV.__init__ (E := Demo.env) Demo.args "hyperopt" random_search_keywords []
  = (Raise TypeError, []).
Proof.
  apply (SimpleoptCV_rejects_foreign_keywords (E := Demo.env)).
  - unfold backends. apply elem_of_cons. left. reflexivity.
  - apply (bool_decide_eq_false_1 _). vm_compute. reflexivity.
Defined.

Lemma constructor_arguments_read_back_witness :
  SimpleoptCV.getattr (E := Demo.env) ga_wrapper "iter_pergeneration" []
  = (Ok (Value (PyInt 1)), []) /\
  SimpleoptCV.getattr (E := Demo.env) ga_wrapper "max_iter" []
  = (Ok (Value (PyInt 32)), []).
Proof.
  destruct (constructor_arguments_read_back (E := Demo.env)
              Demo.args "gaopt" random_search_keywords [] ga_wrapper
              ["BaseSearcher.__init__ gaopt"])
    as (Hmax & _ & _ & Hga & _).
  - vm_compute. reflexivity.
  - split.
    + rewrite (Hga eq_refl "iter_pergeneration" []); [reflexivity|].
      apply (bool_decide_unpack _). vm_compute. exact I.
    + apply Hmax.
Defined.
